(** * A shallow embedding of [app.py]: the [/data] security check and the
      operations guarded by it.

    The file has three layers.
    - [Py]: the Python values, exceptions and string helpers the source uses
      ([str.startswith], [str.endswith], [in], [json.dump(..., indent=4)]).
    - [Os]: the store the source reaches through [os.path.exists] and [open]:
      a finite map from resolved absolute paths to files and directories,
      together with the trace of external interactions.
    - [App]: the functions of [app.py], written in a state-and-exception
      monad over the store, with the third-party libraries taken as a record
      of collaborators. *)

From Stdlib Require Import Ascii String ZArith Lia.
From stdpp Require Import base strings list gmap pretty.

Local Open Scope string_scope.
Local Open Scope Z_scope.
Local Set Warnings "-register-all".

(* ===================================================================== *)
(** ** Python values, exceptions, strings *)
(* ===================================================================== *)

Module Py.

(** Characters that cannot be written inside a literal. *)
Definition dquote : ascii := "034"%char.
Definition newline : ascii := "010"%char.
Definition squote : ascii := "'"%char.

Definition chr (c : ascii) : string := String c EmptyString.

(** [s.startswith(pre)] *)
Definition startswith (s pre : string) : bool := String.prefix pre s.

(** [s.endswith(suf)] *)
Definition endswith (s suf : string) : bool :=
  String.prefix (String.rev suf) (String.rev s).

(** [needle in hay] on strings. *)
Fixpoint contains (hay needle : string) : bool :=
  String.prefix needle hay ||
  match hay with
  | EmptyString => false
  | String _ rest => contains rest needle
  end.

(** The values that [response.json()] and [request.json] produce, which are
    also the values of a database row that [json.dump] can print.  A float
    carries the text [repr] gives it; a dict keeps insertion order and has
    string keys, as every dict built in [app.py] has.  Database values of
    other types (bytes, dates, decimals) are outside the model. *)
Inductive PyVal : Type :=
| PyNone
| PyBool (b : bool)
| PyInt (n : Z)
| PyFloat (repr : string)
| PyStr (s : string)
| PyList (items : list PyVal)
| PyDict (entries : list (string * PyVal)).

(** [isinstance(v, dict)] and [isinstance(v, str)] *)
Definition is_dict (v : PyVal) : bool :=
  match v with PyDict _ => true | _ => false end.
Definition is_str (v : PyVal) : bool :=
  match v with PyStr _ => true | _ => false end.

(** The name [type(v).__name__] that Python puts in its error messages. *)
Definition type_name (v : PyVal) : string :=
  match v with
  | PyNone => "NoneType"
  | PyBool _ => "bool"
  | PyInt _ => "int"
  | PyFloat _ => "float"
  | PyStr _ => "str"
  | PyList _ => "list"
  | PyDict _ => "dict"
  end.

(** The name [file.write] gives its argument in the [TypeError] for a value
    that is not a [str]: the type name, except that [None] is named as
    such. *)
Definition write_arg_name (v : PyVal) : string :=
  match v with
  | PyNone => "None"
  | _ => type_name v
  end.

(** The exception classes that occur; all of them derive from [Exception],
    so [except Exception] catches each. *)
Inductive ExnKind : Type :=
| PermissionError
| RuntimeError
| TypeError
| AttributeError
| FileNotFoundError
| IsADirectoryError
| NotADirectoryError
| CalledProcessError
| LibraryError (library : string).

Record Exn : Type := MkExn { exn_kind : ExnKind; exn_msg : string }.

(** [str(e)] *)
Definition str_of_exn (e : Exn) : string := exn_msg e.

Inductive Result (A : Type) : Type :=
| Ok (a : A)
| Raise (e : Exn).
Arguments Ok {A} a.
Arguments Raise {A} e.

Global Instance ExnKind_eq_dec : EqDecision ExnKind.
Proof. solve_decision. Defined.

(** *** [repr] of a [str] and of a list of them *)

Definition hex_digit (n : N) : ascii :=
  match n with
  | 0 => "0" | 1 => "1" | 2 => "2" | 3 => "3" | 4 => "4" | 5 => "5"
  | 6 => "6" | 7 => "7" | 8 => "8" | 9 => "9" | 10 => "a" | 11 => "b"
  | 12 => "c" | 13 => "d" | 14 => "e" | _ => "f"
  end%N%char.

Fixpoint has_char (c : ascii) (s : string) : bool :=
  match s with
  | EmptyString => false
  | String d rest => Ascii.eqb c d || has_char c rest
  end.

(** The quote [repr] puts around a string: double quotes when the string
    has an apostrophe and no double quote, single quotes otherwise. *)
Definition repr_quote (s : string) : ascii :=
  if has_char squote s && negb (has_char dquote s) then dquote else squote.

(** [str.isprintable] on the code points below 256. *)
Definition printable (n : N) : bool :=
  ((32 <=? n) && (n <? 127) || (161 <=? n) && negb (n =? 173))%N.

Definition repr_char (quote c : ascii) : string :=
  let n := N_of_ascii c in
  if Ascii.eqb c quote || (n =? 92)%N then "\" +:+ chr c
  else if (n =? 9)%N then "\t"
  else if (n =? 10)%N then "\n"
  else if (n =? 13)%N then "\r"
  else if printable n then chr c
  else "\x" +:+ chr (hex_digit (n / 16)) +:+ chr (hex_digit (n mod 16)).

Fixpoint repr_chars (quote : ascii) (s : string) : string :=
  match s with
  | EmptyString => EmptyString
  | String c rest => repr_char quote c +:+ repr_chars quote rest
  end.

(** [repr(s)] *)
Definition py_repr (s : string) : string :=
  let quote := repr_quote s in
  chr quote +:+ repr_chars quote s +:+ chr quote.

Fixpoint repr_items (items : list string) : string :=
  match items with
  | [] => EmptyString
  | [x] => py_repr x
  | x :: rest => py_repr x +:+ ", " +:+ repr_items rest
  end.

(** [str(items)] for a list of strings. *)
Definition py_str_list (items : list string) : string :=
  "[" +:+ repr_items items +:+ "]".

(** *** [dict.get] and [dict(zip(columns, row))] *)

Fixpoint assoc_get (entries : list (string * PyVal)) (key : string) : option PyVal :=
  match entries with
  | [] => None
  | (k, v) :: rest => if String.eqb k key then Some v else assoc_get rest key
  end.

(** Assignment [d[key] = v]: an existing key keeps its position. *)
Fixpoint assoc_set (entries : list (string * PyVal)) (key : string) (v : PyVal)
  : list (string * PyVal) :=
  match entries with
  | [] => [(key, v)]
  | (k, old) :: rest =>
      if String.eqb k key then (k, v) :: rest else (k, old) :: assoc_set rest key v
  end.

(** [zip] stops at the shorter argument. *)
Fixpoint zip_pairs (columns : list string) (row : list PyVal) : list (string * PyVal) :=
  match columns, row with
  | c :: cs, x :: xs => (c, x) :: zip_pairs cs xs
  | _, _ => []
  end.

Definition dict_of_pairs (pairs : list (string * PyVal)) : list (string * PyVal) :=
  fold_left (fun acc kv => assoc_set acc (fst kv) (snd kv)) pairs [].

(** *** [json.dump(v, file, indent=4)] *)

(** One character of a JSON string under [ensure_ascii=True]: everything
    outside the printable range space..tilde is escaped.  Strings of the
    model are sequences of code points below 256. *)
Definition json_escape_char (c : ascii) : string :=
  let n := N_of_ascii c in
  if (n =? 34)%N then "\" +:+ chr dquote
  else if (n =? 92)%N then "\\"
  else if (n =? 10)%N then "\n"
  else if (n =? 13)%N then "\r"
  else if (n =? 9)%N then "\t"
  else if (n =? 8)%N then "\b"
  else if (n =? 12)%N then "\f"
  else if ((n <? 32) || (126 <? n))%N
       then "\u00" +:+ chr (hex_digit (n / 16)) +:+ chr (hex_digit (n mod 16))
  else chr c.

Fixpoint json_escape (s : string) : string :=
  match s with
  | EmptyString => EmptyString
  | String c rest => json_escape_char c +:+ json_escape rest
  end.

Definition json_quote (s : string) : string :=
  chr dquote +:+ json_escape s +:+ chr dquote.

Fixpoint spaces (n : nat) : string :=
  match n with
  | O => EmptyString
  | S k => String " " (spaces k)
  end.

(** Line break followed by the indentation of nesting depth [level]. *)
Definition json_break (level : nat) : string :=
  chr newline +:+ spaces (4 * level).

(** A float: [repr] for a finite one, the JavaScript names otherwise. *)
Definition json_float (repr : string) : string :=
  if String.eqb repr "inf" then "Infinity"
  else if String.eqb repr "-inf" then "-Infinity"
  else if String.eqb repr "nan" then "NaN"
  else repr.

Fixpoint json_encode (level : nat) (v : PyVal) : string :=
  match v with
  | PyNone => "null"
  | PyBool true => "true"
  | PyBool false => "false"
  | PyInt n => pretty n
  | PyFloat repr => json_float repr
  | PyStr s => json_quote s
  | PyList [] => "[]"
  | PyList (x :: xs) =>
      "[" +:+ json_break (S level) +:+ json_encode (S level) x
      +:+ (fix items (l : list PyVal) : string :=
             match l with
             | [] => EmptyString
             | y :: ys =>
                 "," +:+ json_break (S level) +:+ json_encode (S level) y +:+ items ys
             end) xs
      +:+ json_break level +:+ "]"
  | PyDict [] => "{}"
  | PyDict ((k, x) :: xs) =>
      "{" +:+ json_break (S level) +:+ json_quote k +:+ ": " +:+ json_encode (S level) x
      +:+ (fix members (l : list (string * PyVal)) : string :=
             match l with
             | [] => EmptyString
             | (k', y) :: ys =>
                 "," +:+ json_break (S level) +:+ json_quote k' +:+ ": "
                 +:+ json_encode (S level) y +:+ members ys
             end) xs
      +:+ json_break level +:+ "}"
  end.

(** The text [json.dump(v, file, indent=4)] writes. *)
Definition json_dump_indent4 (v : PyVal) : string := json_encode 0 v.

End Py.

(* ===================================================================== *)
(** ** The store behind [os.path.exists] and [open] *)
(* ===================================================================== *)

Module Os.
Import Py.

(** *** Path resolution

    The operating system resolves a path before it looks anything up.  The
    model resolves lexically: empty and [.] segments are dropped and [..]
    removes the segment before it (the root is its own parent).  A relative
    path is taken from the root.  Symbolic links are not part of the model.

    The lexical reading is that of the operating system for a path written
    in resolved form ([resolve path = path]), and for [..] after directories
    that exist.  It differs where the operating system refuses to walk: a
    [..] or a further segment after a name that is missing or is a file, and
    a trailing slash on something that is not a directory.  Where the store
    has no entry at the resolved path, the operating system finds none
    either.  Permissions and the limits of the device are not modelled.  The
    statements below that need the operating system to create a file say in
    their hypotheses that the path is written in resolved form and that the
    operating system accepts it ([os_accepts]). *)

Fixpoint split_slash (s cur : string) : list string :=
  match s with
  | EmptyString => [String.rev cur]
  | String c rest =>
      if Ascii.eqb c "/" then String.rev cur :: split_slash rest EmptyString
      else split_slash rest (String c cur)
  end.

Fixpoint walk (segs stack : list string) : list string :=
  match segs with
  | [] => rev stack
  | seg :: rest =>
      if String.eqb seg EmptyString || String.eqb seg "." then walk rest stack
      else if String.eqb seg ".." then walk rest (tail stack)
      else walk rest (seg :: stack)
  end.

(** The segments of the resolved path, outermost first ([[]] is the root). *)
Definition resolved_segments (path : string) : list string :=
  walk (split_slash path EmptyString) [].

Fixpoint join_segments (segs : list string) : string :=
  match segs with
  | [] => EmptyString
  | seg :: rest => "/" +:+ seg +:+ join_segments rest
  end.

Definition render_segments (segs : list string) : string :=
  match segs with
  | [] => "/"
  | _ => join_segments segs
  end.

(** The resolved absolute path, as [os.path.realpath] would print it. *)
Definition resolve (path : string) : string :=
  render_segments (resolved_segments path).

(** The directory that holds the resolved path. *)
Definition parent (path : string) : string :=
  render_segments (removelast (resolved_segments path)).

(** The number of bytes of a name as the operating system receives it: the
    UTF-8 encoding of its code points. *)
Fixpoint byte_length (s : string) : N :=
  match s with
  | EmptyString => 0
  | String c rest => (if N_of_ascii c <? 128 then 1 else 2) + byte_length rest
  end%N.

(** The operating system takes the path at all: it has no NUL character, it
    is shorter than [PATH_MAX] (4096) and none of its segments is longer
    than [NAME_MAX] (255). *)
Definition os_accepts (path : string) : bool :=
  negb (has_char "000"%char path)
  && (byte_length path <? 4096)%N
  && forallb (fun seg => (byte_length seg <=? 255)%N) (split_slash path EmptyString).

(** *** The world *)

Inductive Node : Type :=
| File (content : string)
| Dir.

(** What leaves the process: every call to a collaborator and every access
    to the store other than a lookup of existence. *)
Inductive Event : Type :=
| HttpGet (url : string)
| Subprocess (argv : list string)
| DbConnect (engine path : string)
| DbExecute (query : string)
| DbClose
| FileCreate (path : string)
| FileWrite (path data : string)
| FileRead (path : string)
| LibCall (name : string).

Record World : Type := MkWorld {
  fs : gmap string Node;   (* keyed by resolved path *)
  trace : list Event       (* oldest first *)
}.

Definition set_fs (w : World) (m : gmap string Node) : World :=
  {| fs := m; trace := trace w |}.

Definition log (w : World) (e : Event) : World :=
  {| fs := fs w; trace := trace w ++ [e] |}.

(** [os.path.exists(path)] *)
Definition path_exists (w : World) (path : string) : bool :=
  bool_decide (is_Some (fs w !! resolve path)).

(** *** Computations that change the world or raise *)

Definition M (A : Type) : Type := World -> Result A * World.

Definition ret {A} (a : A) : M A := fun w => (Ok a, w).

Definition raise {A} (kind : ExnKind) (msg : string) : M A :=
  fun w => (Raise (MkExn kind msg), w).

Definition bind {A B} (m : M A) (k : A -> M B) : M B :=
  fun w =>
    match m w with
    | (Ok a, w') => k a w'
    | (Raise e, w') => (Raise e, w')
    end.

(** [try: body  except Exception as e: handler e] *)
Definition try_except {A} (body : M A) (handler : Exn -> M A) : M A :=
  fun w =>
    match body w with
    | (Ok a, w') => (Ok a, w')
    | (Raise e, w') => handler e w'
    end.

(** [try: body  finally: cleanup] *)
Definition try_finally {A} (body : M A) (cleanup : M unit) : M A :=
  fun w =>
    match body w with
    | (r, w') =>
        match cleanup w' with
        | (Ok _, w'') => (r, w'')
        | (Raise e, w'') => (Raise e, w'')
        end
    end.

Definition emit (e : Event) : M unit := fun w => (Ok tt, log w e).

(** Lift the result of a collaborator that does not touch the store. *)
Definition lift {A} (r : Result A) : M A := fun w => (r, w).

(** Run a collaborator that may change the store. *)
Definition on_store {A} (f : gmap string Node -> Result A * gmap string Node) : M A :=
  fun w => let (r, m) := f (fs w) in (r, set_fs w m).

(** Read [os.path.exists(path)] inside a computation. *)
Definition os_path_exists (path : string) : M bool :=
  fun w => (Ok (path_exists w path), w).

Declare Scope py_scope.
Delimit Scope py_scope with py.
Notation "'let*' x ':=' m 'in' k" := (bind m (fun x => k))
  (at level 10, x name, m at level 100, k at level 200) : py_scope.
Notation "m ';;' k" := (bind m (fun _ => k))
  (at level 100, k at level 200, right associativity) : py_scope.

Local Open Scope py_scope.

(** [str] of an [OSError] that names a file: the file name is printed by
    [repr]. *)
Definition errno_msg (text path : string) : string :=
  text +:+ ": " +:+ py_repr path.

(** [open(path, 'w')]: creates or truncates the file.  Returns the key under
    which the file lives. *)
Definition open_w (path : string) : M string :=
  fun w =>
    let key := resolve path in
    match fs w !! key with
    | Some Dir =>
        (Raise (MkExn IsADirectoryError (errno_msg "[Errno 21] Is a directory" path)), w)
    | _ =>
        match fs w !! parent path with
        | Some Dir =>
            (Ok key, log (set_fs w (<[key := File EmptyString]> (fs w))) (FileCreate key))
        | Some (File _) =>
            (Raise (MkExn NotADirectoryError (errno_msg "[Errno 20] Not a directory" path)), w)
        | None =>
            (Raise (MkExn FileNotFoundError
                      (errno_msg "[Errno 2] No such file or directory" path)), w)
        end
    end.

(** [file.write(data)] on a file opened for writing, given a string.  The
    strings of the model are code points below 256, which UTF-8 always
    encodes; text that cannot be encoded (a lone surrogate), on which the
    real write raises, has no counterpart here. *)
Definition write_str (key data : string) : M unit :=
  fun w =>
    let old := match fs w !! key with Some (File c) => c | _ => EmptyString end in
    (Ok tt, log (set_fs w (<[key := File (old +:+ data)]> (fs w))) (FileWrite key data)).

(** [file.write(data)] for any value: only a [str] is accepted. *)
Definition file_write (key : string) (data : PyVal) : M unit :=
  match data with
  | PyStr s => write_str key s
  | _ => raise TypeError ("write() argument must be str, not " +:+ write_arg_name data)
  end.

(** [open(path, 'r')] followed by [file.read()]; also what a library does
    when it is handed a path to load. *)
Definition read_file (path : string) : M string :=
  fun w =>
    match fs w !! resolve path with
    | Some (File c) => (Ok c, log w (FileRead (resolve path)))
    | Some Dir =>
        (Raise (MkExn IsADirectoryError (errno_msg "[Errno 21] Is a directory" path)), w)
    | None =>
        (Raise (MkExn FileNotFoundError
                  (errno_msg "[Errno 2] No such file or directory" path)), w)
    end.

End Os.

(* ===================================================================== *)
(** ** [app.py] *)
(* ===================================================================== *)

Module App.
Import Py Os.
Local Open Scope py_scope.

(** What [requests.get] returns, as far as [app.py] looks at it:
    [status_code], [headers.get('Content-Type')], [text] and [json()]. *)
Record Response : Type := MkResponse {
  status_code : Z;
  content_type : option string;
  text : string;
  json : Result PyVal
}.

(** What [cur.execute] leaves behind: [cur.description] reduced to the
    column names ([None] when the statement returns no rows) and
    [cur.fetchall()]. *)
Record QueryResult : Type := MkQueryResult {
  description : option (list string);
  rows : list (list PyVal)
}.

(** The libraries [app.py] imports, by the calls it makes on them.  A
    collaborator that runs a process or opens a database is handed the store
    and returns the store it leaves; the others are functions of their
    arguments.  A library that is handed a path to load is called, reads the
    file through the store, and decodes what it read.  The cache a library
    keeps for itself, such as the models whisper downloads, is not part of
    the store.  [signal_name n] is the name of signal [n] in
    [signal.Signals], where the platform has one. *)
Record Collab : Type := MkCollab {
  Conn : Type;
  Image : Type;
  Model : Type;
  DataFrame : Type;
  requests_get : string -> Result Response;
  subprocess_run : list string -> gmap string Node -> Result Z * gmap string Node;
  sqlite3_connect : string -> gmap string Node -> Result Conn * gmap string Node;
  duckdb_connect : string -> gmap string Node -> Result Conn * gmap string Node;
  cursor_execute : Conn -> string -> gmap string Node -> Result QueryResult * gmap string Node;
  soup_get_text : string -> string;
  image_decode : string -> Result Image;
  image_resize : Image -> Z * Z -> Result Image;
  image_encode : Image -> string -> Result string;
  whisper_load_model : string -> Result Model;
  model_transcribe : Model -> string -> Result string;
  markdown_markdown : string -> Result string;
  csv_parse : string -> Result DataFrame;
  df_has_column : DataFrame -> PyVal -> Result bool;
  df_filter_eq : DataFrame -> PyVal -> PyVal -> Result DataFrame;
  df_to_records : DataFrame -> Result PyVal;
  builtin_str : PyVal -> string;
  signal_name : Z -> option string
}.

Section Operations.
Context (C : Collab).

(** *** Security checks (B1 and B2) *)

(** [a and b], where [b] is evaluated only when [a] holds. *)
Definition and_then (a : bool) (b : M bool) : M bool :=
  if a then b else ret false.

(** [enforce_security(filepath, allow_deletion=False)] *)
Definition enforce_security (filepath : string) (allow_deletion : bool) : M bool :=
  if negb (startswith filepath "/data") then
    raise PermissionError ("Access outside /data is not allowed: " +:+ filepath)
  else
    let* existing := and_then (negb allow_deletion) (os_path_exists filepath) in
    if existing then
      raise PermissionError
        ("Deletion/modification of existing files is not allowed: " +:+ filepath)
    else ret true.

(** [data.get(key)] on whatever [request.json] produced. *)
Definition dict_get (data : PyVal) (key : string) : M PyVal :=
  match data with
  | PyDict entries => ret (default PyNone (assoc_get entries key))
  | _ =>
      raise AttributeError
        (chr squote +:+ type_name data +:+ "' object has no attribute 'get'")
  end.

(** [str] of the [CalledProcessError] for command [argv] and return code
    [code]: a negative code is the signal that ended the process. *)
Definition called_process_error_str (argv : list string) (code : Z) : string :=
  let command := "Command '" +:+ py_str_list argv +:+ "' " in
  if code <? 0 then
    match signal_name C (- code) with
    | Some name =>
        command +:+ "died with <Signals." +:+ name +:+ ": " +:+ pretty (- code) +:+ ">."
    | None => command +:+ "died with unknown signal " +:+ pretty (- code) +:+ "."
    end
  else command +:+ "returned non-zero exit status " +:+ pretty code +:+ ".".

(** [subprocess.run(argv, check=True)] *)
Definition subprocess_run_check (argv : list string) : M unit :=
  emit (Subprocess argv) ;;
  let* code := on_store (subprocess_run C argv) in
  if code =? 0 then ret tt
  else raise CalledProcessError (called_process_error_str argv code).

(** *** B3: fetch data from an API *)

Definition fetch_and_save_data (url save_path : string) : M unit :=
  enforce_security save_path false ;;
  emit (HttpGet url) ;;
  let* response := lift (requests_get C url) in
  if negb (status_code response =? 200) then
    raise RuntimeError
      ("Failed to fetch data. HTTP " +:+ pretty (status_code response) +:+ ": "
       +:+ text response)
  else
    let* data :=
      (if contains (default EmptyString (content_type response)) "application/json"
       then lift (json response)
       else ret (PyStr (text response))) in
    let* file := open_w save_path in
    if is_dict data then write_str file (json_dump_indent4 data)
    else file_write file data.

(** *** B4: clone a git repository and make a commit *)

Definition repo_path : string := "/data/repo".

Definition clone_git_repo (repo_url commit_message : string) : M unit :=
  enforce_security repo_path false ;;
  let* present := os_path_exists repo_path in
  (if negb present
   then subprocess_run_check ["git"; "clone"; repo_url; repo_path]
   else ret tt) ;;
  subprocess_run_check ["git"; "-C"; repo_path; "add"; "."] ;;
  subprocess_run_check ["git"; "-C"; repo_path; "commit"; "-m"; commit_message].

(** *** B5: execute an SQL query and save the results *)

Definition row_dicts (q : QueryResult) : list PyVal :=
  let columns := default [] (description q) in
  map (fun row => PyDict (dict_of_pairs (zip_pairs columns row))) (rows q).

Definition execute_sql_query (db_path query output_filename : string) : M unit :=
  enforce_security db_path false ;;
  enforce_security output_filename false ;;
  let* conn :=
    (if endswith db_path ".db"
     then emit (DbConnect "sqlite3" db_path) ;; on_store (sqlite3_connect C db_path)
     else emit (DbConnect "duckdb" db_path) ;; on_store (duckdb_connect C db_path)) in
  let* output_data :=
    try_finally
      (try_except
         (emit (DbExecute query) ;;
          let* q := on_store (cursor_execute C conn query) in
          ret (row_dicts q))
         (fun e => raise RuntimeError ("SQL execution failed: " +:+ str_of_exn e)))
      (emit DbClose) in
  let* file := open_w output_filename in
  write_str file (json_dump_indent4 (PyList output_data)).

(** *** B6: web scraping *)

Definition scrape_website (url output_filename : string) : M unit :=
  enforce_security output_filename false ;;
  emit (HttpGet url) ;;
  let* response := lift (requests_get C url) in
  if negb (status_code response =? 200) then
    raise RuntimeError
      ("Failed to scrape data. HTTP " +:+ pretty (status_code response))
  else
    emit (LibCall "BeautifulSoup.get_text") ;;
    let extracted_text := soup_get_text C (text response) in
    let* file := open_w output_filename in
    write_str file extracted_text.

(** *** B7: image processing *)

(** [resize] is [None] or a pair of dimensions. *)
Definition process_image (image_path output_path : string) (resize : option (Z * Z))
  : M unit :=
  enforce_security image_path false ;;
  enforce_security output_path false ;;
  try_except
    (emit (LibCall "Image.open") ;;
     let* raw := read_file image_path in
     let* img := lift (image_decode C raw) in
     let* img :=
       (match resize with
        | Some dims => emit (LibCall "Image.resize") ;; lift (image_resize C img dims)
        | None => ret img
        end) in
     emit (LibCall "Image.save") ;;
     let* encoded := lift (image_encode C img output_path) in
     let* file := open_w output_path in
     write_str file encoded)
    (fun e => raise RuntimeError ("Image processing failed: " +:+ str_of_exn e)).

(** *** B8: audio transcription *)

Definition transcribe_audio (audio_path output_path : string) : M unit :=
  enforce_security audio_path false ;;
  enforce_security output_path false ;;
  emit (LibCall "whisper.load_model") ;;
  let* model := lift (whisper_load_model C "small") in
  emit (LibCall "model.transcribe") ;;
  let* raw := read_file audio_path in
  let* result_text := lift (model_transcribe C model raw) in
  let* file := open_w output_path in
  write_str file result_text.

(** *** B9: Markdown to HTML *)

Definition convert_md_to_html (md_path output_path : string) : M unit :=
  enforce_security md_path false ;;
  enforce_security output_path false ;;
  try_except
    (let* source := read_file md_path in
     emit (LibCall "markdown.markdown") ;;
     let* html := lift (markdown_markdown C source) in
     let* file := open_w output_path in
     write_str file html)
    (fun e => raise RuntimeError ("Markdown conversion failed: " +:+ str_of_exn e)).

(** *** B10: the [/filter_csv] endpoint *)

(** The text an f-string puts for a value. *)
Definition format_value (v : PyVal) : string :=
  match v with
  | PyStr s => s
  | _ => builtin_str C v
  end.

Definition error_body (message : string) : PyVal :=
  PyDict [("error", PyStr message)].

(** The body of the [try] block of the view. *)
Definition filter_csv_try (path : string) (filter_column filter_value : PyVal)
  : M (PyVal * Z) :=
  emit (LibCall "pd.read_csv") ;;
  let* raw := read_file path in
  let* df := lift (csv_parse C raw) in
  let* known := lift (df_has_column C df filter_column) in
  if negb known then
    ret (error_body ("Column '" +:+ format_value filter_column
                     +:+ "' does not exist"), 400)
  else
    let* filtered := lift (df_filter_eq C df filter_column filter_value) in
    let* records := lift (df_to_records C filtered) in
    ret (records, 200).

(** The view function from its second line on, given the value that
    [request.json] returned; a request whose body Flask does not accept as
    JSON is answered by [request.json] itself and never gets here.  The
    result is the body handed to [jsonify] and the status; a bare
    [jsonify(...)] has status 200.  A value of [csv_path] that is not a
    [str] has no [startswith]. *)
Definition filter_csv (data : PyVal) : M (PyVal * Z) :=
  let* csv_path := dict_get data "csv_path" in
  let* filter_column := dict_get data "filter_column" in
  let* filter_value := dict_get data "filter_value" in
  match csv_path with
  | PyStr path =>
      enforce_security path false ;;
      try_except
        (filter_csv_try path filter_column filter_value)
        (fun e => ret (error_body (str_of_exn e), 500))
  | _ =>
      raise AttributeError
        (chr squote +:+ type_name csv_path
         +:+ "' object has no attribute 'startswith'")
  end.

(** What Flask sends for a view: the view's own body and status, or, when
    an exception leaves the view, its 500 page, which carries no body of the
    application. *)
Definition flask_response (r : Result (PyVal * Z)) : option PyVal * Z :=
  match r with
  | Ok (body, status) => (Some body, status)
  | Raise _ => (None, 500)
  end.

Definition serve_filter_csv (data : PyVal) (w : World) : (option PyVal * Z) * World :=
  let (r, w') := filter_csv data w in (flask_response r, w').

(** *** All operations at once *)

Inductive Operation : Type :=
| FetchAndSave (url save_path : string)
| CloneGitRepo (repo_url commit_message : string)
| ExecuteSql (db_path query output_filename : string)
| Scrape (url output_filename : string)
| ProcessImage (image_path output_path : string) (resize : option (Z * Z))
| Transcribe (audio_path output_path : string)
| ConvertMd (md_path output_path : string)
| FilterCsv (data : PyVal).

(** Run an operation, forgetting what it returns. *)
Definition call (op : Operation) : M unit :=
  match op with
  | FetchAndSave url save_path => fetch_and_save_data url save_path
  | CloneGitRepo repo_url commit_message => clone_git_repo repo_url commit_message
  | ExecuteSql db_path query output_filename =>
      execute_sql_query db_path query output_filename
  | Scrape url output_filename => scrape_website url output_filename
  | ProcessImage image_path output_path resize =>
      process_image image_path output_path resize
  | Transcribe audio_path output_path => transcribe_audio audio_path output_path
  | ConvertMd md_path output_path => convert_md_to_html md_path output_path
  | FilterCsv data => filter_csv data ;; ret tt
  end.

End Operations.

(** The paths an operation hands to [enforce_security], in the order of the
    calls. *)
Definition checked_paths (op : Operation) : list string :=
  match op with
  | FetchAndSave _ save_path => [save_path]
  | CloneGitRepo _ _ => [repo_path]
  | ExecuteSql db_path _ output_filename => [db_path; output_filename]
  | Scrape _ output_filename => [output_filename]
  | ProcessImage image_path output_path _ => [image_path; output_path]
  | Transcribe audio_path output_path => [audio_path; output_path]
  | ConvertMd md_path output_path => [md_path; output_path]
  | FilterCsv (PyDict entries) =>
      match assoc_get entries "csv_path" with
      | Some (PyStr path) => [path]
      | _ => []
      end
  | FilterCsv _ => []
  end.

(** The paths among them that the operation only reads. *)
Definition read_paths (op : Operation) : list string :=
  match op with
  | ExecuteSql db_path _ _ => [db_path]
  | ProcessImage image_path _ _ => [image_path]
  | Transcribe audio_path _ => [audio_path]
  | ConvertMd md_path _ => [md_path]
  | FilterCsv _ as op' => checked_paths op'
  | _ => []
  end.

End App.

(* ===================================================================== *)
(** ** The vocabulary of the specification, read on the code *)
(* ===================================================================== *)

Module Policy.
Import Py Os App.

(** The intents of the specification. *)
Inductive PathIntent : Type :=
| Read
| WriteNew
| WriteOverwrite
| WriteIdempotent.

(** How an intent reaches [enforce_security].  Every call in [app.py]
    leaves [allow_deletion] at its default, whether the path is an input
    ([db_path], [image_path], [audio_path], [md_path], [csv_path]), an output
    or the repository of [clone_git_repo]; only an explicit
    [allow_deletion=True] asks for overwriting. *)
Definition allow_deletion_of (intent : PathIntent) : bool :=
  match intent with
  | WriteOverwrite => true
  | Read | WriteNew | WriteIdempotent => false
  end.

(** [check(path, intent)] *)
Definition check (path : string) (intent : PathIntent) : M bool :=
  enforce_security path (allow_deletion_of intent).

(** The decision in an outcome of the gate. *)
Definition permitted {A} (outcome : Result A * World) : bool :=
  match fst outcome with
  | Ok _ => true
  | Raise _ => false
  end.

(** An outcome that is a [PermissionError]. *)
Definition is_policy_violation {A} (outcome : Result A * World) : bool :=
  match fst outcome with
  | Raise e => bool_decide (exn_kind e = PermissionError)
  | Ok _ => false
  end.

(** The sandbox root of [app.py], in segments. *)
Definition root_segment : string := "data".

(** The path resolves to the root or below it. *)
Definition resolves_inside_root (path : string) : bool :=
  match resolved_segments path with
  | seg :: _ => String.eqb seg root_segment
  | [] => false
  end.

Definition resolves_outside_root (path : string) : bool :=
  negb (resolves_inside_root path).

(** The path resolves to a place strictly below the root. *)
Definition resolves_strictly_inside_root (path : string) : bool :=
  match resolved_segments path with
  | seg :: _ :: _ => String.eqb seg root_segment
  | _ => false
  end.

(** A path that is written in resolved form and lies strictly below the
    root: the root is its first segment and at least one segment follows.
    This is narrower than [resolves_strictly_inside_root], which also admits
    the other spellings of such a place. *)
Definition strictly_inside_root (path : string) : Prop :=
  resolve path = path /\
  exists child rest, resolved_segments path = root_segment :: child :: rest.

(** Status classes of HTTP. *)
Definition client_error_class (status : Z) : bool :=
  (400 <=? status) && (status <? 500).
Definition server_error_class (status : Z) : bool :=
  (500 <=? status) && (status <? 600).

End Policy.

(* ===================================================================== *)
(** ** Collaborators and worlds used in examples *)
(* ===================================================================== *)

Module Demo.
Import Py Os App.

(** A git that succeeds: [clone] makes the destination a directory. *)
Definition git (argv : list string) (m : gmap string Node)
  : Result Z * gmap string Node :=
  match argv with
  | [_; "clone"; _; dest] => (Ok 0, <[resolve dest := Dir]> m)
  | _ => (Ok 0, m)
  end.

Definition no_rows : QueryResult := {| description := None; rows := [] |}.

(** Collaborators over trivial handles; the web is the parameter. *)
Definition collab (web : string -> Result Response) : Collab :=
  {| Conn := unit; Image := string; Model := unit; DataFrame := list string;
     requests_get := web;
     subprocess_run := git;
     sqlite3_connect := fun _ m => (Ok tt, m);
     duckdb_connect := fun _ m => (Ok tt, m);
     cursor_execute := fun _ _ m => (Ok no_rows, m);
     soup_get_text := fun html => html;
     image_decode := fun raw => Ok raw;
     image_resize := fun img _ => Ok img;
     image_encode := fun img _ => Ok img;
     whisper_load_model := fun _ => Ok tt;
     model_transcribe := fun _ raw => Ok raw;
     markdown_markdown := fun source => Ok source;
     csv_parse := fun raw => Ok [raw];
     df_has_column := fun _ _ => Ok true;
     df_filter_eq := fun df _ _ => Ok df;
     df_to_records := fun _ => Ok (PyList []);
     builtin_str := type_name;
     signal_name := fun _ => None |}.

Definition json_response (body : string) (parsed : PyVal) : Response :=
  {| status_code := 200;
     content_type := Some "application/json";
     text := body;
     json := Ok parsed |}.

(** A server whose every page is the JSON object with [a] set to 1. *)
Definition web_object (_ : string) : Result Response :=
  Ok (json_response ("{" +:+ chr dquote +:+ "a" +:+ chr dquote +:+ ":1}")
        (PyDict [("a", PyInt 1)])).

(** A server whose every page is the JSON array of 1 and 2. *)
Definition web_array (_ : string) : Result Response :=
  Ok (json_response "[1,2]" (PyList [PyInt 1; PyInt 2])).

(** A server whose every page is the JSON string [hi]. *)
Definition web_string (_ : string) : Result Response :=
  Ok (json_response (chr dquote +:+ "hi" +:+ chr dquote) (PyStr "hi")).

(** A machine with an empty [/data] and an [/etc]. *)
Definition fresh_fs : gmap string Node :=
  <["/" := Dir]> (<["/data" := Dir]> (<["/etc" := Dir]> ∅)).

Definition fresh : World := {| fs := fresh_fs; trace := [] |}.

(** The same machine once [/etc/passwd], [/data/app.db], [/data/table.csv]
    and the repository [/data/repo] are there. *)
Definition populated_fs : gmap string Node :=
  <["/etc/passwd" := File "root"]>
    (<["/data/app.db" := File "sqlite"]>
       (<["/data/table.csv" := File "a,b"]> (<["/data/repo" := Dir]> fresh_fs))).

Definition populated : World := {| fs := populated_fs; trace := [] |}.

Definition filter_request (csv_path : PyVal) : PyVal :=
  PyDict [("csv_path", csv_path); ("filter_column", PyStr "a");
          ("filter_value", PyInt 1)].

End Demo.

(* ===================================================================== *)
(** ** Relations between the world before and after a computation *)
(* ===================================================================== *)

Module Frame.
Import Py Os App.



(** A computation that takes every world to a world related to it. *)
Definition respects (R : World -> World -> Prop) {A} (m : M A) : Prop :=
  forall w, R w (snd (m w)).

(** The trace has only grown. *)
Definition trace_grows (w w' : World) : Prop :=
  exists l : list Event, trace w' = (trace w ++ l)%list.


(** The store is the same, or the only change is that [key], absent before,
    now holds a file. *)
Definition creates_at_most (key : string) (w w' : World) : Prop :=
  fs w' = fs w \/
  (fs w !! key = None /\ exists content, fs w' = <[key := File content]> (fs w)).

(** The file an operation is to produce, for the operations that write
    one themselves. *)
Definition output_path (op : Operation) : option string :=
  match op with
  | FetchAndSave _ save_path => Some save_path
  | ExecuteSql _ _ output_filename => Some output_filename
  | Scrape _ output_filename => Some output_filename
  | ProcessImage _ output_path _ => Some output_path
  | Transcribe _ output_path => Some output_path
  | ConvertMd _ output_path => Some output_path
  | CloneGitRepo _ _ | FilterCsv _ => None
  end.

End Frame.

(* ===================================================================== *)
(** ** More collaborators for examples *)
(* ===================================================================== *)

Module Scenes.
Import Py Os App.


(** A git whose every command fails with status 128. *)
Definition git_failing (argv : list string) (m : gmap string Node)
  : Result Z * gmap string Node := (Ok 128, m).

(** Collaborators over trivial handles, given the web, git and what a
    query returns. *)
Definition tools (web : string -> Result Response)
    (git : list string -> gmap string Node -> Result Z * gmap string Node)
    (answer : string -> Result QueryResult) : Collab :=
  {| Conn := unit; Image := string; Model := unit; DataFrame := list string;
     requests_get := web;
     subprocess_run := git;
     sqlite3_connect := fun _ m => (Ok tt, m);
     duckdb_connect := fun _ m => (Ok tt, m);
     cursor_execute := fun _ query m => (answer query, m);
     soup_get_text := fun html => html;
     image_decode := fun raw => Ok raw;
     image_resize := fun img _ => Ok img;
     image_encode := fun img _ => Ok img;
     whisper_load_model := fun _ => Ok tt;
     model_transcribe := fun _ raw => Ok raw;
     markdown_markdown := fun source => Ok source;
     csv_parse := fun raw => Ok [raw];
     df_has_column := fun _ _ => Ok true;
     df_filter_eq := fun df _ _ => Ok df;
     df_to_records := fun _ => Ok (PyList []);
     builtin_str := type_name;
     signal_name := fun _ => None |}.

(** A server whose every page is plain text. *)
Definition web_text (_ : string) : Result Response :=
  Ok {| status_code := 200; content_type := Some "text/plain";
        text := "hello"; json := Raise (MkExn (LibraryError "json") "not JSON") |}.

(** A server whose every page is the JSON value [null]. *)
Definition web_null (_ : string) : Result Response :=
  Ok {| status_code := 200; content_type := Some "application/json";
        text := "null"; json := Ok PyNone |}.

(** A server that answers 503 to everything. *)
Definition web_down (_ : string) : Result Response :=
  Ok {| status_code := 503; content_type := None;
        text := "busy"; json := Raise (MkExn (LibraryError "json") "not JSON") |}.

(** A database holding one row with the columns [id] and [name]. *)
Definition one_row (_ : string) : Result QueryResult :=
  Ok {| description := Some ["id"; "name"];
        rows := [[PyInt 7; PyStr "x"]] |}.

(** A database that rejects every statement. *)
Definition no_table (_ : string) : Result QueryResult :=
  Raise (MkExn (LibraryError "sqlite3") "no such table: t").

End Scenes.

(* ===================================================================== *)
(** ** Properties *)
(* ===================================================================== *)

Import Py Os App Policy.
Local Open Scope py_scope.

(** *** Stepping through a computation *)

Lemma bind_ok {A B} (m : M A) (k : A -> M B) w a w' :
  m w = (Ok a, w') -> bind m k w = k a w'.
Proof. intros H. unfold bind. rewrite H. reflexivity. Qed.

Lemma bind_raise {A B} (m : M A) (k : A -> M B) w e w' :
  m w = (Raise e, w') -> bind m k w = (Raise e, w').
Proof. intros H. unfold bind. rewrite H. reflexivity. Qed.

Lemma try_except_raise {A} (body : M A) handler w e w' :
  body w = (Raise e, w') -> try_except body handler w = handler e w'.
Proof. intros H. unfold try_except. rewrite H. reflexivity. Qed.

(** *** The gate *)

Section Gate.
Context (C : Collab).

(** The gate, as a function of the prefix test and of existence. *)
Lemma enforce_security_unfold filepath allow_deletion w :
  enforce_security filepath allow_deletion w =
  if negb (startswith filepath "/data") then
    (Raise (MkExn PermissionError
              ("Access outside /data is not allowed: " +:+ filepath)), w)
  else if negb allow_deletion && path_exists w filepath then
    (Raise (MkExn PermissionError
              ("Deletion/modification of existing files is not allowed: "
               +:+ filepath)), w)
  else (Ok true, w).
Proof.
  unfold enforce_security.
  destruct (startswith filepath "/data"); simpl; [|reflexivity].
  destruct allow_deletion; simpl; [reflexivity|].
  unfold bind, os_path_exists.
  destruct (path_exists w filepath); reflexivity.
Qed.

Lemma enforce_security_cases filepath allow_deletion w :
  enforce_security filepath allow_deletion w = (Ok true, w) \/
  exists msg,
    enforce_security filepath allow_deletion w = (Raise (MkExn PermissionError msg), w).
Proof.
  rewrite enforce_security_unfold.
  destruct (negb (startswith filepath "/data")); [right; eauto|].
  destruct (negb allow_deletion && path_exists w filepath); [right; eauto|].
  left; reflexivity.
Qed.

Lemma enforce_security_denied filepath allow_deletion w :
  permitted (enforce_security filepath allow_deletion w) = false ->
  exists msg,
    enforce_security filepath allow_deletion w = (Raise (MkExn PermissionError msg), w).
Proof.
  destruct (enforce_security_cases filepath allow_deletion w) as [H|H];
    [rewrite H; discriminate | intros _; exact H].
Qed.

Lemma existing_path_denied filepath w :
  path_exists w filepath = true ->
  permitted (enforce_security filepath false w) = false.
Proof.
  intros Hex. rewrite enforce_security_unfold, Hex.
  destruct (negb (startswith filepath "/data")); reflexivity.
Qed.

Lemma enforce_security_permits filepath allow_deletion w :
  startswith filepath "/data" = true ->
  negb allow_deletion && path_exists w filepath = false ->
  enforce_security filepath allow_deletion w = (Ok true, w).
Proof.
  intros Hpre Hex. rewrite enforce_security_unfold, Hpre, Hex. reflexivity.
Qed.

(** Both checks of an operation with two paths. *)
Lemma two_checks_denied {A} p q (k : M A) w x :
  In x [p; q] ->
  permitted (enforce_security x false w) = false ->
  exists msg,
    (enforce_security p false ;; enforce_security q false ;; k) w
    = (Raise (MkExn PermissionError msg), w).
Proof.
  intros Hin Hden.
  destruct (enforce_security_cases p false w) as [Hp|[msg Hp]].
  - rewrite (bind_ok _ _ _ _ _ Hp).
    destruct (enforce_security_cases q false w) as [Hq|[msg Hq]].
    + exfalso. destruct Hin as [<-|[<-|[]]].
      * rewrite Hp in Hden. discriminate.
      * rewrite Hq in Hden. discriminate.
    + exists msg. apply bind_raise. exact Hq.
  - exists msg. apply bind_raise. exact Hp.
Qed.

Lemma one_check_denied {A} p (k : M A) w x :
  In x [p] ->
  permitted (enforce_security x false w) = false ->
  exists msg,
    (enforce_security p false ;; k) w = (Raise (MkExn PermissionError msg), w).
Proof.
  intros [<-|[]] Hden.
  destruct (enforce_security_denied _ _ _ Hden) as [msg Hp].
  exists msg. apply bind_raise. exact Hp.
Qed.

(** An operation one of whose checks denies raises the [PermissionError] and
    leaves the world, trace included, as it found it. *)
Lemma call_denied op w p :
  In p (checked_paths op) ->
  permitted (enforce_security p false w) = false ->
  exists msg, call C op w = (Raise (MkExn PermissionError msg), w).
Proof.
  intros Hin Hden. destruct op; unfold call.
  - eapply one_check_denied; eassumption.
  - eapply one_check_denied; eassumption.
  - eapply two_checks_denied; eassumption.
  - eapply one_check_denied; eassumption.
  - eapply two_checks_denied; eassumption.
  - eapply two_checks_denied; eassumption.
  - eapply two_checks_denied; eassumption.
  - destruct data; try (destruct Hin; fail).
    unfold checked_paths in Hin.
    destruct (assoc_get entries "csv_path") as [v|] eqn:Hget;
      [|destruct Hin].
    destruct v; try (destruct Hin; fail).
    destruct Hin as [<-|[]].
    destruct (enforce_security_denied _ _ _ Hden) as [msg Hgate].
    exists msg. apply bind_raise.
    unfold filter_csv, dict_get, bind at 1 2 3, ret at 1 2 3.
    rewrite Hget. cbv beta iota. unfold default at 1. cbv beta iota.
    apply bind_raise. exact Hgate.
Qed.

End Gate.

(** A path strictly inside the root passes the prefix test of the gate. *)
Lemma strictly_inside_startswith path :
  strictly_inside_root path -> startswith path "/data" = true.
Proof.
  intros [Hres (child & rest & Hseg)].
  rewrite <- Hres. unfold resolve. rewrite Hseg. reflexivity.
Qed.

Lemma read_paths_checked op p : In p (read_paths op) -> In p (checked_paths op).
Proof.
  destruct op; simpl; try tauto.
Qed.

(** *** Checks come before effects *)

(** Read the other way round: an operation that changed anything, or
    returned, had all its checks pass. *)
Lemma effects_imply_all_permitted (C : Collab) (op : Operation) (w : World) :
  snd (call C op w) <> w \/ (exists a, fst (call C op w) = Ok a) ->
  forall p, In p (checked_paths op) ->
    enforce_security p false w = (Ok true, w).
Proof.
  intros Hrun p Hin.
  destruct (enforce_security_cases p false w) as [Hok|[msg Hden]]; [exact Hok|].
  destruct (call_denied C op w p Hin) as [msg' Hcall].
  { rewrite Hden. reflexivity. }
  rewrite Hcall in Hrun. destruct Hrun as [Hneq|[a Ha]];
    [contradiction Hneq; reflexivity | discriminate Ha].
Qed.

(** C2: for every operation, when the gate denies any of the paths the
    operation checks, the operation ends in the gate's [PermissionError]
    with the world exactly as it was: nothing was fetched, no process was
    run, no file was created or written, and the trace of external
    interactions has not grown. *)
Theorem checks_precede_effects (C : Collab) (op : Operation) (w : World) (p : string) :
  In p (checked_paths op) ->
  permitted (enforce_security p false w) = false ->
  exists msg, call C op w = (Raise (MkExn PermissionError msg), w).
Proof. apply call_denied. Qed.

Lemma checks_precede_effects_witness :
  In "/etc/out.json"
     (checked_paths (ExecuteSql "/data/new.db" "select 1" "/etc/out.json")) /\
  permitted (enforce_security "/etc/out.json" false Demo.fresh) = false /\
  exists msg,
    call (Demo.collab Demo.web_object)
         (ExecuteSql "/data/new.db" "select 1" "/etc/out.json") Demo.fresh
    = (Raise (MkExn PermissionError msg), Demo.fresh).
Proof.
  split; [simpl; auto|].
  split; [reflexivity|].
  apply (checks_precede_effects (Demo.collab Demo.web_object)
           (ExecuteSql "/data/new.db" "select 1" "/etc/out.json")
           Demo.fresh "/etc/out.json").
  - simpl; auto.
  - reflexivity.
Defined.

(** C9: every operation calls the gate with [allow_deletion] at its default,
    so whenever a path it checks already exists, be it an output or an input
    that is only read, the operation raises [PermissionError] before any
    effect.  No operation is ever let through on an existing path, which is
    all the overwrite branch of the gate could do. *)
Theorem existing_path_blocks_operation
    (C : Collab) (op : Operation) (w : World) (p : string) :
  In p (checked_paths op) ->
  path_exists w p = true ->
  exists msg, call C op w = (Raise (MkExn PermissionError msg), w).
Proof.
  intros Hin Hex. eapply call_denied; [exact Hin|].
  apply existing_path_denied. exact Hex.
Qed.

Lemma existing_path_blocks_operation_witness :
  In "/data/table.csv"
     (checked_paths (FilterCsv (Demo.filter_request (PyStr "/data/table.csv")))) /\
  path_exists Demo.populated "/data/table.csv" = true /\
  exists msg,
    call (Demo.collab Demo.web_object)
         (FilterCsv (Demo.filter_request (PyStr "/data/table.csv"))) Demo.populated
    = (Raise (MkExn PermissionError msg), Demo.populated).
Proof.
  split; [simpl; auto|].
  split; [vm_compute; reflexivity|].
  apply (existing_path_blocks_operation (Demo.collab Demo.web_object)
           (FilterCsv (Demo.filter_request (PyStr "/data/table.csv")))
           Demo.populated "/data/table.csv").
  - simpl; auto.
  - vm_compute; reflexivity.
Defined.

(** *** The gate itself *)

(** C8: the gate is a function of the path, the flag and the store alone.
    Two worlds with the same store give the same decision, with the same
    message, whatever happened before in either (their traces may differ),
    and the gate hands back the world it was given: it writes nothing and
    records nothing. *)
Theorem gate_deterministic_and_pure
    (filepath : string) (allow_deletion : bool) (w1 w2 : World) :
  fs w1 = fs w2 ->
  fst (enforce_security filepath allow_deletion w1)
  = fst (enforce_security filepath allow_deletion w2) /\
  snd (enforce_security filepath allow_deletion w1) = w1.
Proof.
  intros Hfs. rewrite !enforce_security_unfold.
  assert (Hex : path_exists w1 filepath = path_exists w2 filepath)
    by (unfold path_exists; rewrite Hfs; reflexivity).
  rewrite Hex.
  destruct (negb (startswith filepath "/data")); [split; reflexivity|].
  destruct (negb allow_deletion && path_exists w2 filepath); split; reflexivity.
Qed.

Lemma gate_deterministic_and_pure_witness :
  fs Demo.populated = fs (log Demo.populated (HttpGet "http://x/ok")) /\
  fst (enforce_security "/data/app.db" false Demo.populated)
  = fst (enforce_security "/data/app.db" false
           (log Demo.populated (HttpGet "http://x/ok"))) /\
  snd (enforce_security "/data/app.db" false Demo.populated) = Demo.populated.
Proof.
  split; [reflexivity|].
  apply (gate_deterministic_and_pure "/data/app.db" false Demo.populated
           (log Demo.populated (HttpGet "http://x/ok"))).
  reflexivity.
Defined.

(** For a path written in resolved form strictly below [/data], the gate in
    its default mode, the one used for new files, permits exactly when the
    path does not exist; when it exists the gate denies with the message
    about existing files. *)
Theorem write_new_permitted_iff_absent (p : string) (w : World) :
  strictly_inside_root p ->
  check p WriteNew w =
  if path_exists w p then
    (Raise (MkExn PermissionError
              ("Deletion/modification of existing files is not allowed: " +:+ p)), w)
  else (Ok true, w).
Proof.
  intros Hin. unfold check, allow_deletion_of.
  rewrite enforce_security_unfold, (strictly_inside_startswith p Hin).
  reflexivity.
Qed.

Lemma write_new_permitted_iff_absent_witness :
  (strictly_inside_root "/data/new.txt" /\
   check "/data/new.txt" WriteNew Demo.populated = (Ok true, Demo.populated)) /\
  (strictly_inside_root "/data/app.db" /\
   permitted (check "/data/app.db" WriteNew Demo.populated) = false).
Proof.
  assert (Hnew : strictly_inside_root "/data/new.txt").
  { split; [reflexivity|]. exists "new.txt", []. reflexivity. }
  assert (Hold : strictly_inside_root "/data/app.db").
  { split; [reflexivity|]. exists "app.db", []. reflexivity. }
  split; (split; [assumption|]).
  - exact (write_new_permitted_iff_absent "/data/new.txt" Demo.populated Hnew).
  - rewrite (write_new_permitted_iff_absent "/data/app.db" Demo.populated Hold).
    reflexivity.
Defined.

(** *** Where the gate and the specification part *)

(** C4: the check for a new file is made on the text of the path, so a path
    can lie strictly inside [/data], not exist, and still be denied.
    [//data/new.txt] and [/./data/new.txt] both resolve to [/data/new.txt],
    strictly inside the root; on the fresh machine nothing exists there; and
    the gate denies each of them, calling it access outside [/data]. *)
Theorem inside_path_denied_by_spelling :
  resolve "//data/new.txt" = "/data/new.txt" /\
  resolves_strictly_inside_root "//data/new.txt" = true /\
  path_exists Demo.fresh "//data/new.txt" = false /\
  check "//data/new.txt" WriteNew Demo.fresh =
    (Raise (MkExn PermissionError
       "Access outside /data is not allowed: //data/new.txt"), Demo.fresh) /\
  resolves_strictly_inside_root "/./data/new.txt" = true /\
  path_exists Demo.fresh "/./data/new.txt" = false /\
  check "/./data/new.txt" WriteNew Demo.fresh =
    (Raise (MkExn PermissionError
       "Access outside /data is not allowed: /./data/new.txt"), Demo.fresh).
Proof. vm_compute. repeat split; reflexivity. Qed.

Lemma permitted_not_existing filepath w :
  enforce_security filepath false w = (Ok true, w) ->
  fs w !! resolve filepath = None.
Proof.
  rewrite enforce_security_unfold.
  destruct (negb (startswith filepath "/data")); [discriminate|].
  simpl. unfold path_exists.
  destruct (fs w !! resolve filepath) as [n|] eqn:Hlook; [|reflexivity].
  rewrite bool_decide_eq_true_2 by eauto. discriminate.
Qed.

Lemma read_file_missing path w :
  fs w !! resolve path = None ->
  read_file path w =
  (Raise (MkExn FileNotFoundError
            (errno_msg "[Errno 2] No such file or directory" path)), w).
Proof. intros H. unfold read_file. rewrite H. reflexivity. Qed.

(** A library that is called with a missing file. *)
Lemma read_missing_after_emit {A} e path (k : string -> M A) w :
  fs w !! resolve path = None ->
  (emit e ;; let* raw := read_file path in k raw) w =
  (Raise (MkExn FileNotFoundError
            (errno_msg "[Errno 2] No such file or directory" path)), log w e).
Proof.
  intros H. change ((emit e ;; let* raw := read_file path in k raw) w)
    with ((let* raw := read_file path in k raw) (log w e)).
  apply bind_raise, read_file_missing. exact H.
Qed.

(** C1: the gate tests the text of the path.  [/data/../etc/passwd] resolves
    outside [/data], yet with [allow_deletion=True] it is permitted in every
    world; in its default mode the gate denies it only where [/etc/passwd]
    exists, and then for the wrong reason; and [/data/../etc/cron], absent
    from the fresh machine, is permitted under every intent, after which
    [fetch_and_save_data] writes [/etc/cron]. *)
Theorem traversal_passes_gate :
  resolves_outside_root "/data/../etc/passwd" = true /\
  (forall w, check "/data/../etc/passwd" WriteOverwrite w = (Ok true, w)) /\
  check "/data/../etc/passwd" Read Demo.populated =
    (Raise (MkExn PermissionError
       "Deletion/modification of existing files is not allowed: /data/../etc/passwd"),
     Demo.populated) /\
  resolves_outside_root "/data/../etc/cron" = true /\
  (forall intent,
     check "/data/../etc/cron" intent Demo.fresh = (Ok true, Demo.fresh)) /\
  (let outcome :=
     fetch_and_save_data (Demo.collab Demo.web_string) "http://x/ok"
       "/data/../etc/cron" Demo.fresh in
   fst outcome = Ok tt /\ fs (snd outcome) !! "/etc/cron" = Some (File "hi")).
Proof.
  split; [reflexivity|].
  split; [intros w; reflexivity|].
  split; [vm_compute; reflexivity|].
  split; [reflexivity|].
  split; [intros []; vm_compute; reflexivity|].
  vm_compute. split; reflexivity.
Qed.

(** C3: a path that is only read goes through the same default mode of the
    gate.  [/data/app.db] is strictly inside [/data] and exists, and the
    check for reading it is denied; [execute_sql_query] on it raises
    [PermissionError], whatever the query and the collaborators, without
    connecting to the database. *)
Theorem existing_read_target_denied :
  strictly_inside_root "/data/app.db" /\
  path_exists Demo.populated "/data/app.db" = true /\
  check "/data/app.db" Read Demo.populated =
    (Raise (MkExn PermissionError
       "Deletion/modification of existing files is not allowed: /data/app.db"),
     Demo.populated) /\
  forall (C : Collab) (query : string),
    execute_sql_query C "/data/app.db" query "/data/out.json" Demo.populated =
    (Raise (MkExn PermissionError
       "Deletion/modification of existing files is not allowed: /data/app.db"),
     Demo.populated).
Proof.
  split.
  { split; [reflexivity|]. exists "app.db", []. reflexivity. }
  split; [vm_compute; reflexivity|].
  assert (Hgate : enforce_security "/data/app.db" false Demo.populated =
    (Raise (MkExn PermissionError
       "Deletion/modification of existing files is not allowed: /data/app.db"),
     Demo.populated)) by (vm_compute; reflexivity).
  split; [exact Hgate|].
  intros C query. unfold execute_sql_query.
  apply bind_raise. exact Hgate.
Qed.

(** The half of the reading rule that the code does follow: a read target
    strictly inside [/data] that is missing passes the gate. *)
Lemma missing_read_target_permitted (p : string) (w : World) :
  strictly_inside_root p ->
  path_exists w p = false ->
  check p Read w = (Ok true, w).
Proof.
  intros Hin Habs. unfold check, allow_deletion_of.
  apply enforce_security_permits;
    [apply strictly_inside_startswith; exact Hin | rewrite Habs; reflexivity].
Qed.

(** The operations that load a file they have just required not to exist
    cannot succeed: when the checks pass, the read fails. *)
Lemma convert_md_to_html_never_succeeds (C : Collab) md_path output_path w :
  exists e, fst (convert_md_to_html C md_path output_path w) = Raise e.
Proof.
  unfold convert_md_to_html.
  destruct (enforce_security_cases md_path false w) as [Hp|[msg Hp]];
    [|erewrite bind_raise by exact Hp; eauto].
  rewrite (bind_ok _ _ _ _ _ Hp).
  destruct (enforce_security_cases output_path false w) as [Hq|[msg Hq]];
    [|erewrite bind_raise by exact Hq; eauto].
  rewrite (bind_ok _ _ _ _ _ Hq).
  erewrite try_except_raise
    by (apply bind_raise, read_file_missing, permitted_not_existing; exact Hp).
  eexists. reflexivity.
Qed.

Lemma process_image_never_succeeds (C : Collab) image_path output_path resize w :
  exists e, fst (process_image C image_path output_path resize w) = Raise e.
Proof.
  unfold process_image.
  destruct (enforce_security_cases image_path false w) as [Hp|[msg Hp]];
    [|erewrite bind_raise by exact Hp; eauto].
  rewrite (bind_ok _ _ _ _ _ Hp).
  destruct (enforce_security_cases output_path false w) as [Hq|[msg Hq]];
    [|erewrite bind_raise by exact Hq; eauto].
  rewrite (bind_ok _ _ _ _ _ Hq).
  erewrite try_except_raise
    by (apply read_missing_after_emit, permitted_not_existing; exact Hp).
  eexists. reflexivity.
Qed.

(** C5: the repository path gets no exemption.  In every world in which
    [/data/repo] exists, [clone_git_repo] raises [PermissionError] and runs
    no git command.  On the fresh machine a first call clones and commits;
    the same call again is refused. *)
Theorem existing_repository_refused :
  (forall (C : Collab) (repo_url commit_message : string)
          (m : gmap string Node) (node : Node) (events : list Event),
     let w := {| fs := <["/data/repo" := node]> m; trace := events |} in
     clone_git_repo C repo_url commit_message w =
     (Raise (MkExn PermissionError
        "Deletion/modification of existing files is not allowed: /data/repo"), w)) /\
  (let first :=
     clone_git_repo (Demo.collab Demo.web_object) "http://x/r.git" "update" Demo.fresh in
   fst first = Ok tt /\
   trace (snd first) =
     [Subprocess ["git"; "clone"; "http://x/r.git"; "/data/repo"];
      Subprocess ["git"; "-C"; "/data/repo"; "add"; "."];
      Subprocess ["git"; "-C"; "/data/repo"; "commit"; "-m"; "update"]] /\
   clone_git_repo (Demo.collab Demo.web_object) "http://x/r.git" "update" (snd first) =
   (Raise (MkExn PermissionError
      "Deletion/modification of existing files is not allowed: /data/repo"),
    snd first)).
Proof.
  split.
  - intros C repo_url commit_message m node events w.
    unfold clone_git_repo. apply bind_raise.
    rewrite enforce_security_unfold.
    assert (Hex : path_exists w repo_path = true).
    { unfold path_exists, w. simpl fs.
      change (resolve repo_path) with "/data/repo".
      rewrite lookup_insert_eq. apply bool_decide_eq_true_2. eauto. }
    rewrite Hex. reflexivity.
  - vm_compute. repeat split; reflexivity.
Qed.

(** *** Fetch and save *)

Lemma bind_emit {B} (e : Event) (k : unit -> M B) w :
  bind (emit e) k w = k tt (log w e).
Proof. reflexivity. Qed.

Lemma bind_lift {A B} (r : Result A) (k : A -> M B) w a :
  r = Ok a -> bind (lift r) k w = k a w.
Proof. intros ->. reflexivity. Qed.

Lemma absent_lookup w path :
  path_exists w path = false -> fs w !! resolve path = None.
Proof.
  unfold path_exists. intros H.
  destruct (fs w !! resolve path) eqn:Hlook; [|reflexivity].
  rewrite bool_decide_eq_true_2 in H by eauto. discriminate.
Qed.

Lemma open_w_creates path w :
  fs w !! resolve path = None ->
  fs w !! parent path = Some Dir ->
  open_w path w =
  (Ok (resolve path),
   log (set_fs w (<[resolve path := File EmptyString]> (fs w)))
       (FileCreate (resolve path))).
Proof. intros Hnone Hdir. unfold open_w. rewrite Hnone, Hdir. reflexivity. Qed.

Lemma pretty_object_a_1 :
  json_dump_indent4 (PyDict [("a", PyInt 1)]) =
  "{" +:+ chr newline +:+ "    " +:+ chr dquote +:+ "a" +:+ chr dquote +:+ ": 1"
  +:+ chr newline +:+ "}".
Proof. vm_compute. reflexivity. Qed.

(** The world after the gate has passed, the page has been fetched and the
    output file has been opened. *)
Lemma fetch_reaches_open (C : Collab) url save_path w response data :
  startswith save_path "/data" = true ->
  path_exists w save_path = false ->
  fs w !! parent save_path = Some Dir ->
  requests_get C url = Ok response ->
  status_code response = 200 ->
  contains (default EmptyString (content_type response)) "application/json" = true ->
  json response = Ok data ->
  fetch_and_save_data C url save_path w =
  (if is_dict data then write_str (resolve save_path) (json_dump_indent4 data)
   else file_write (resolve save_path) data)
    (log (set_fs (log w (HttpGet url))
            (<[resolve save_path := File EmptyString]> (fs w)))
         (FileCreate (resolve save_path))).
Proof.
  intros Hpre Habs Hdir Hget Hstatus Hct Hjson.
  unfold fetch_and_save_data.
  rewrite (bind_ok _ _ _ _ _ (enforce_security_permits save_path false w Hpre
             ltac:(rewrite Habs; reflexivity))).
  rewrite bind_emit, (bind_lift _ _ _ _ Hget), Hstatus.
  change (negb (200 =? 200)) with false. cbv iota.
  rewrite Hct, (bind_lift _ _ _ _ Hjson).
  rewrite (bind_ok _ _ _ _ _
             (open_w_creates save_path (log w (HttpGet url))
                (absent_lookup w save_path Habs) Hdir)).
  reflexivity.
Qed.

(** C6: with a save path strictly inside [/data] that does not exist yet (in
    a directory that does), against a server answering 200 with content type
    JSON and the object with [a] at 1, [fetch_and_save_data] returns and the
    file holds the object printed with an indent of four; the same call
    again raises [PermissionError] and leaves the world, the file included,
    as it was. *)
Theorem fetch_saves_then_refuses
    (C : Collab) (url save_path : string) (w : World) (body ct : string) :
  strictly_inside_root save_path ->
  path_exists w save_path = false ->
  fs w !! parent save_path = Some Dir ->
  requests_get C url =
    Ok {| status_code := 200; content_type := Some ct; text := body;
          json := Ok (PyDict [("a", PyInt 1)]) |} ->
  contains ct "application/json" = true ->
  exists w1,
    fetch_and_save_data C url save_path w = (Ok tt, w1) /\
    fs w1 = <[save_path :=
               File ("{" +:+ chr newline +:+ "    " +:+ chr dquote +:+ "a"
                     +:+ chr dquote +:+ ": 1" +:+ chr newline +:+ "}")]> (fs w) /\
    exists msg,
      fetch_and_save_data C url save_path w1 = (Raise (MkExn PermissionError msg), w1).
Proof.
  intros Hin Habs Hdir Hget Hct.
  pose proof (strictly_inside_startswith _ Hin) as Hpre.
  destruct Hin as [Hres _].
  eexists. split; [|split].
  - erewrite fetch_reaches_open; try eassumption; try reflexivity.
    simpl is_dict. cbv iota. unfold write_str. reflexivity.
  - simpl fs. rewrite lookup_insert_eq, insert_insert_eq, pretty_object_a_1, Hres.
    reflexivity.
  - unfold fetch_and_save_data.
    match goal with |- context [bind (enforce_security ?p false) ?k ?w1] =>
      destruct (enforce_security_denied p false w1) as [msg Hden]
    end.
    + apply existing_path_denied. unfold path_exists. simpl fs.
      rewrite lookup_insert_eq. apply bool_decide_eq_true_2. eauto.
    + exists msg. apply bind_raise. exact Hden.
Qed.

Lemma fetch_saves_then_refuses_witness :
  exists w1,
    fetch_and_save_data (Demo.collab Demo.web_object) "http://x/ok" "/data/out.json"
      Demo.fresh = (Ok tt, w1) /\
    fs w1 = <["/data/out.json" :=
               File ("{" +:+ chr newline +:+ "    " +:+ chr dquote +:+ "a"
                     +:+ chr dquote +:+ ": 1" +:+ chr newline +:+ "}")]> (fs Demo.fresh) /\
    exists msg,
      fetch_and_save_data (Demo.collab Demo.web_object) "http://x/ok" "/data/out.json" w1
      = (Raise (MkExn PermissionError msg), w1).
Proof.
  apply (fetch_saves_then_refuses (Demo.collab Demo.web_object) "http://x/ok"
           "/data/out.json" Demo.fresh
           ("{" +:+ chr dquote +:+ "a" +:+ chr dquote +:+ ":1}") "application/json").
  - split; [reflexivity|]. exists "out.json", []. reflexivity.
  - vm_compute; reflexivity.
  - vm_compute; reflexivity.
  - reflexivity.
  - reflexivity.
Defined.

(** C10, as stated, at a JSON string: the body parses to a value that is not
    an object, and the operation returns, having written the string as text. *)
Lemma json_string_body_is_saved :
  let run :=
    fetch_and_save_data (Demo.collab Demo.web_string) "http://x/ok" "/data/out.json"
      Demo.fresh in
  Demo.web_string "http://x/ok"
    = Ok (Demo.json_response (chr dquote +:+ "hi" +:+ chr dquote) (PyStr "hi")) /\
  is_dict (PyStr "hi") = false /\
  fst run = Ok tt /\
  fs (snd run) !! "/data/out.json" = Some (File "hi").
Proof. vm_compute. repeat split; reflexivity. Qed.

(** C10, amended: a 200 response of content type JSON whose body parses to a
    value that is neither an object nor a string (an array, a number, a
    boolean, null) makes [fetch_and_save_data] raise [TypeError] itself, not
    wrapped in a [RuntimeError], from [file.write]; by then the output file
    has been created, and it stays empty.  The save path is one that passes
    the gate and can be created: accepted by the operating system, written
    in resolved form, beginning with [/data], not existing, in a directory
    that exists. *)
Theorem non_object_json_fails_after_create
    (C : Collab) (url save_path : string) (w : World)
    (response : Response) (data : PyVal) :
  startswith save_path "/data" = true ->
  os_accepts save_path = true ->
  resolve save_path = save_path ->
  path_exists w save_path = false ->
  fs w !! parent save_path = Some Dir ->
  requests_get C url = Ok response ->
  status_code response = 200 ->
  contains (default EmptyString (content_type response)) "application/json" = true ->
  json response = Ok data ->
  is_dict data = false ->
  is_str data = false ->
  exists w',
    fetch_and_save_data C url save_path w =
      (Raise (MkExn TypeError
                ("write() argument must be str, not " +:+ write_arg_name data)), w') /\
    fs w' = <[save_path := File EmptyString]> (fs w).
Proof.
  intros Hpre _ Hres Habs Hdir Hget Hstatus Hct Hjson Hdict Hstr.
  eexists. split.
  - erewrite fetch_reaches_open; try eassumption.
    rewrite Hdict. destruct data; try discriminate; reflexivity.
  - simpl. rewrite Hres. reflexivity.
Qed.

Lemma non_object_json_fails_after_create_witness :
  (exists w',
     fetch_and_save_data (Demo.collab Demo.web_array) "http://x/ok" "/data/out.json"
       Demo.fresh =
       (Raise (MkExn TypeError "write() argument must be str, not list"), w') /\
     fs w' = <["/data/out.json" := File EmptyString]> (fs Demo.fresh)) /\
  (exists w',
     fetch_and_save_data (Scenes.tools Scenes.web_null Demo.git Scenes.one_row)
       "http://x/ok" "/data/out.json" Demo.fresh =
       (Raise (MkExn TypeError "write() argument must be str, not None"), w') /\
     fs w' = <["/data/out.json" := File EmptyString]> (fs Demo.fresh)).
Proof.
  split.
  - apply (non_object_json_fails_after_create (Demo.collab Demo.web_array)
             "http://x/ok" "/data/out.json" Demo.fresh
             (Demo.json_response "[1,2]" (PyList [PyInt 1; PyInt 2]))
             (PyList [PyInt 1; PyInt 2])).
    + reflexivity.
    + reflexivity.
    + reflexivity.
    + vm_compute; reflexivity.
    + vm_compute; reflexivity.
    + reflexivity.
    + reflexivity.
    + reflexivity.
    + reflexivity.
    + reflexivity.
    + reflexivity.
  - apply (non_object_json_fails_after_create
             (Scenes.tools Scenes.web_null Demo.git Scenes.one_row)
             "http://x/ok" "/data/out.json" Demo.fresh
             {| status_code := 200; content_type := Some "application/json";
                text := "null"; json := Ok PyNone |}
             PyNone).
    + reflexivity.
    + reflexivity.
    + reflexivity.
    + vm_compute; reflexivity.
    + vm_compute; reflexivity.
    + reflexivity.
    + reflexivity.
    + reflexivity.
    + reflexivity.
    + reflexivity.
    + reflexivity.
Defined.

(** *** The endpoint *)

Lemma serve_filter_csv_unfold (C : Collab) entries w :
  serve_filter_csv C (PyDict entries) w =
  let filter_column := default PyNone (assoc_get entries "filter_column") in
  let filter_value := default PyNone (assoc_get entries "filter_value") in
  match default PyNone (assoc_get entries "csv_path") with
  | PyStr path =>
      let (r, w') :=
        (enforce_security path false ;;
         try_except (filter_csv_try C path filter_column filter_value)
           (fun e => ret (error_body (str_of_exn e), 500))) w in
      (flask_response r, w')
  | other =>
      (flask_response
         (Raise (MkExn AttributeError
                   (chr squote +:+ type_name other
                    +:+ "' object has no attribute 'startswith'"))), w)
  end.
Proof.
  unfold serve_filter_csv, filter_csv, dict_get, bind at 1 2 3, ret at 1 2 3.
  cbv beta iota zeta.
  destruct (default PyNone (assoc_get entries "csv_path")); reflexivity.
Qed.

(** Since the file to load must not exist, the endpoint has one status for
    every request. *)
Lemma filter_csv_always_answers_500 (C : Collab) (data : PyVal) (w : World) :
  snd (fst (serve_filter_csv C data w)) = 500.
Proof.
  destruct data; try reflexivity.
  rewrite serve_filter_csv_unfold. cbv zeta.
  destruct (default PyNone (assoc_get entries "csv_path")); try reflexivity.
  destruct (enforce_security_cases s false w) as [Hgate|[msg Hgate]].
  - rewrite (bind_ok _ _ _ _ _ Hgate).
    erewrite try_except_raise
      by (unfold filter_csv_try;
          apply read_missing_after_emit, permitted_not_existing; exact Hgate).
    reflexivity.
  - erewrite bind_raise by exact Hgate. reflexivity.
Qed.

(** C7: a request for [/etc/passwd], which the security check denies.  The
    view raises the [PermissionError], which it does not catch, and the
    answer is the framework's status 500, of the server error class and not
    of the client error class, without an error object of the application.
    A request that leaves [csv_path] out gets the same answer. *)
Theorem policy_violation_answered_500 :
  let request := Demo.filter_request (PyStr "/etc/passwd") in
  is_policy_violation
    (filter_csv (Demo.collab Demo.web_object) request Demo.populated) = true /\
  serve_filter_csv (Demo.collab Demo.web_object) request Demo.populated
    = ((None, 500), Demo.populated) /\
  client_error_class 500 = false /\
  server_error_class 500 = true /\
  serve_filter_csv (Demo.collab Demo.web_object)
    (PyDict [("filter_column", PyStr "a"); ("filter_value", PyInt 1)]) Demo.populated
    = ((None, 500), Demo.populated).
Proof. vm_compute. repeat split; reflexivity. Qed.

(** The same for every request whose JSON is an object:
    - when the security check denies [csv_path], the [PermissionError]
      leaves the view, raised before the [try] block, and the answer is the
      framework's 500 with no error object, the world untouched;
    - when [csv_path] is missing or not a string, the answer is that 500 too;
    - when the check permits and the [try] block raises, the view answers
      with the error object holding the message and status 500. *)
Lemma filter_csv_failures_answered_500
    (C : Collab) (entries : list (string * PyVal)) (w : World) :
  let csv_path := default PyNone (assoc_get entries "csv_path") in
  let filter_column := default PyNone (assoc_get entries "filter_column") in
  let filter_value := default PyNone (assoc_get entries "filter_value") in
  server_error_class 500 = true /\
  (forall path,
     csv_path = PyStr path ->
     permitted (enforce_security path false w) = false ->
     serve_filter_csv C (PyDict entries) w = ((None, 500), w)) /\
  (is_str csv_path = false ->
     serve_filter_csv C (PyDict entries) w = ((None, 500), w)) /\
  (forall path e w',
     csv_path = PyStr path ->
     permitted (enforce_security path false w) = true ->
     filter_csv_try C path filter_column filter_value w = (Raise e, w') ->
     serve_filter_csv C (PyDict entries) w
     = ((Some (error_body (str_of_exn e)), 500), w')).
Proof.
  intros csv_path filter_column filter_value.
  split; [reflexivity|].
  split; [|split].
  - intros path Hpath Hden. rewrite serve_filter_csv_unfold.
    fold csv_path. rewrite Hpath. cbv zeta.
    destruct (enforce_security_denied _ _ _ Hden) as [msg Hgate].
    erewrite bind_raise by exact Hgate. reflexivity.
  - intros Hstr. rewrite serve_filter_csv_unfold. fold csv_path.
    destruct csv_path; try discriminate; reflexivity.
  - intros path e w' Hpath Hperm Hbody. rewrite serve_filter_csv_unfold.
    fold csv_path filter_column filter_value. rewrite Hpath. cbv zeta.
    destruct (enforce_security_cases path false w) as [Hgate|[msg Hgate]];
      [|rewrite Hgate in Hperm; discriminate].
    rewrite (bind_ok _ _ _ _ _ Hgate), (try_except_raise _ _ _ _ _ Hbody).
    reflexivity.
Qed.

(* ===================================================================== *)
(** ** Further properties of the code *)
(* ===================================================================== *)

Import Frame.

(** *** Strings *)

Lemma prefix_empty s : String.prefix EmptyString s = true.
Proof. destruct s; reflexivity. Qed.

Lemma startswith_iff s pre :
  startswith s pre = true <-> exists rest, s = pre +:+ rest.
Proof.
  unfold startswith. revert s. induction pre as [|c pre IH]; intros s.
  - rewrite prefix_empty. split; [intros _; exists s; reflexivity | reflexivity].
  - destruct s as [|d s]; simpl.
    + split; [discriminate | intros [rest H]; discriminate H].
    + destruct (ascii_dec c d) as [->|Hne].
      * rewrite IH. split; intros [rest H]; exists rest.
        -- rewrite H. reflexivity.
        -- injection H as H. exact H.
      * split; [discriminate|]. intros [rest H]. injection H as Hc _.
        congruence.
Qed.

Lemma rev_app_shift s acc1 acc2 :
  String.rev_app s (acc1 +:+ acc2) = String.rev_app s acc1 +:+ acc2.
Proof.
  revert acc1. induction s as [|c s IH]; intros acc1; simpl; [reflexivity|].
  apply (IH (String c acc1)).
Qed.

Lemma rev_app_append s acc : String.rev_app s acc = String.rev s +:+ acc.
Proof. apply (rev_app_shift s EmptyString acc). Qed.

Lemma append_assoc (a b c : string) : (a +:+ b) +:+ c = a +:+ (b +:+ c).
Proof.
  induction a as [|x a IH]; [reflexivity|].
  change (String x ((a +:+ b) +:+ c) = String x (a +:+ (b +:+ c))).
  f_equal. exact IH.
Qed.

Lemma append_empty_r (a : string) : a +:+ EmptyString = a.
Proof.
  induction a as [|x a IH]; [reflexivity|].
  change (String x (a +:+ EmptyString) = String x a). f_equal. exact IH.
Qed.

Lemma rev_append a b : String.rev (a +:+ b) = String.rev b +:+ String.rev a.
Proof.
  induction a as [|x a IH]; simpl.
  - rewrite append_empty_r. reflexivity.
  - unfold String.rev at 1 3. simpl. rewrite !rev_app_append, IH, append_assoc.
    reflexivity.
Qed.

Lemma rev_involutive s : String.rev (String.rev s) = s.
Proof.
  induction s as [|x s IH]; [reflexivity|].
  unfold String.rev at 2. simpl. rewrite rev_app_append, rev_append, IH.
  reflexivity.
Qed.

Lemma endswith_iff s suf :
  endswith s suf = true <-> exists front, s = front +:+ suf.
Proof.
  unfold endswith.
  rewrite (startswith_iff (String.rev s) (String.rev suf)). split.
  - intros [rest H]. exists (String.rev rest).
    rewrite <- (rev_involutive s), H, rev_append, rev_involutive. reflexivity.
  - intros [front ->]. exists (String.rev front). apply rev_append.
Qed.

Lemma contains_iff hay needle :
  contains hay needle = true <-> exists front back, hay = front +:+ needle +:+ back.
Proof.
  induction hay as [|c hay IH].
  - change (contains EmptyString needle)
      with (startswith EmptyString needle || false).
    rewrite orb_false_r, startswith_iff. split.
    + intros [rest H]. exists EmptyString, rest. exact H.
    + intros (front & back & H). destruct front; [eauto | discriminate H].
  - change (contains (String c hay) needle)
      with (startswith (String c hay) needle || contains hay needle).
    rewrite orb_true_iff, IH, startswith_iff. split.
    + intros [[rest H]|(front & back & H)].
      * exists EmptyString, rest. exact H.
      * exists (String c front), back. rewrite H. reflexivity.
    + intros (front & back & H). destruct front as [|d front].
      * left. exists back. exact H.
      * right. injection H as _ H. eauto.
Qed.

(** *** The gate, by the text of the path *)

Lemma split_slash_traversal t :
  split_slash ("/data/../" +:+ t) EmptyString
  = EmptyString :: "data" :: ".." :: split_slash t EmptyString.
Proof. reflexivity. Qed.

(** X2: climbing out of [/data] reaches every place.  For every path [t], the
    path [/data/../t] resolves to the same place as [/t], and the gate lets
    it through: always when overwriting is asked for, and in its default mode
    whenever there is nothing at [/t] yet. *)
Theorem traversal_reaches_any_path (t : string) (w : World) :
  resolve ("/data/../" +:+ t) = resolve ("/" +:+ t) /\
  enforce_security ("/data/../" +:+ t) true w = (Ok true, w) /\
  (path_exists w ("/" +:+ t) = false ->
   enforce_security ("/data/../" +:+ t) false w = (Ok true, w)).
Proof.
  assert (Hres : resolve ("/data/../" +:+ t) = resolve ("/" +:+ t)).
  { unfold resolve, resolved_segments. rewrite split_slash_traversal. reflexivity. }
  split; [exact Hres|]. split.
  - apply enforce_security_permits; reflexivity.
  - intros Habs. apply enforce_security_permits; [reflexivity|].
    unfold path_exists in *. rewrite Hres, Habs. reflexivity.
Qed.

Lemma traversal_reaches_any_path_witness :
  path_exists Demo.populated "/etc/cron.d" = false /\
  enforce_security "/data/../etc/cron.d" false Demo.populated
  = (Ok true, Demo.populated).
Proof.
  split; [vm_compute; reflexivity|].
  apply (proj2 (proj2 (traversal_reaches_any_path "etc/cron.d" Demo.populated))).
  vm_compute; reflexivity.
Defined.

(** *** Fetching *)

Lemma gate_passed (p : string) (w : World) :
  startswith p "/data" = true ->
  path_exists w p = false ->
  enforce_security p false w = (Ok true, w).
Proof.
  intros Hpre Habs. apply enforce_security_permits; [exact Hpre|].
  rewrite Habs. reflexivity.
Qed.

(** Writing right after the file was opened leaves exactly the data. *)
Lemma write_after_create (key data : string) (w : World) :
  fs (snd (write_str key data
             (log (set_fs w (<[key := File EmptyString]> (fs w))) (FileCreate key))))
  = <[key := File data]> (fs w).
Proof.
  unfold write_str. simpl. rewrite lookup_insert_eq, insert_insert_eq.
  reflexivity.
Qed.

(** The run of [fetch_and_save_data] when the page is saved as text. *)
Lemma fetch_text_run (C : Collab) url save_path w response :
  startswith save_path "/data" = true ->
  path_exists w save_path = false ->
  fs w !! parent save_path = Some Dir ->
  requests_get C url = Ok response ->
  status_code response = 200 ->
  contains (default EmptyString (content_type response)) "application/json" = false ->
  let key := resolve save_path in
  fetch_and_save_data C url save_path w =
  (Ok tt,
   {| fs := <[key := File (text response)]> (fs w);
      trace := (trace w ++ [HttpGet url; FileCreate key;
                            FileWrite key (text response)])%list |}).
Proof.
  intros Hpre Habs Hdir Hget Hstatus Hct key.
  unfold fetch_and_save_data.
  rewrite (bind_ok _ _ _ _ _ (gate_passed save_path w Hpre Habs)).
  rewrite bind_emit, (bind_lift _ _ _ _ Hget), Hstatus.
  change (negb (200 =? 200)) with false. cbv iota.
  rewrite Hct. unfold bind at 1, ret at 1.
  rewrite (bind_ok _ _ _ _ _
             (open_w_creates save_path (log w (HttpGet url))
                (absent_lookup w save_path Habs) Hdir)).
  unfold is_dict, file_write, write_str, log, set_fs. simpl.
  rewrite lookup_insert_eq, insert_insert_eq. fold key.
  rewrite <- !app_assoc. reflexivity.
Qed.

(** X3: a page whose content type does not mention [application/json], or
    has no content type at all, is saved as it came.  For a save path that
    passes the gate and can be created (accepted by the operating system,
    written in resolved form, beginning with [/data], not existing, in a
    directory that exists), the file holds exactly [response.text] after the
    call, and the only interactions were the request, the creation of the
    file and one write.  The text is text that UTF-8 can encode, as every
    string of the model is. *)
Theorem fetch_saves_text_verbatim
    (C : Collab) (url save_path : string) (w : World) (response : Response) :
  startswith save_path "/data" = true ->
  os_accepts save_path = true ->
  resolve save_path = save_path ->
  path_exists w save_path = false ->
  fs w !! parent save_path = Some Dir ->
  requests_get C url = Ok response ->
  status_code response = 200 ->
  contains (default EmptyString (content_type response)) "application/json" = false ->
  fetch_and_save_data C url save_path w =
  (Ok tt,
   {| fs := <[save_path := File (text response)]> (fs w);
      trace := (trace w ++ [HttpGet url; FileCreate save_path;
                            FileWrite save_path (text response)])%list |}).
Proof.
  intros Hpre _ Hres Habs Hdir Hget Hstatus Hct.
  rewrite (fetch_text_run C url save_path w response Hpre Habs Hdir Hget Hstatus Hct).
  rewrite Hres. reflexivity.
Qed.

Lemma fetch_saves_text_verbatim_witness :
  fs (snd (fetch_and_save_data
             (Scenes.tools Scenes.web_text Demo.git Scenes.one_row)
             "http://x/page" "/data/page.txt" Demo.fresh)) !! "/data/page.txt"
  = Some (File "hello").
Proof.
  rewrite (fetch_saves_text_verbatim
             (Scenes.tools Scenes.web_text Demo.git Scenes.one_row)
             "http://x/page" "/data/page.txt" Demo.fresh
             {| status_code := 200; content_type := Some "text/plain";
                text := "hello";
                json := Raise (MkExn (LibraryError "json") "not JSON") |}).
  - vm_compute; reflexivity.
  - reflexivity.
  - reflexivity.
  - reflexivity.
  - vm_compute; reflexivity.
  - vm_compute; reflexivity.
  - reflexivity.
  - reflexivity.
  - reflexivity.
Defined.

(** X4: the gate does not confine the write.  Where [/data] is a directory,
    for every place [/t], written in resolved form, where nothing exists yet
    and whose directory exists, a call with the path [/data/../t] (as long
    as the operating system accepts a path of that length) returns normally
    and leaves the fetched text at [/t]. *)
Theorem fetch_writes_outside_data
    (C : Collab) (url t : string) (w : World) (response : Response) :
  fs w !! "/data" = Some Dir ->
  os_accepts ("/data/../" +:+ t) = true ->
  resolve ("/" +:+ t) = "/" +:+ t ->
  path_exists w ("/" +:+ t) = false ->
  fs w !! parent ("/" +:+ t) = Some Dir ->
  requests_get C url = Ok response ->
  status_code response = 200 ->
  contains (default EmptyString (content_type response)) "application/json" = false ->
  exists w',
    fetch_and_save_data C url ("/data/../" +:+ t) w = (Ok tt, w') /\
    fs w' = <["/" +:+ t := File (text response)]> (fs w).
Proof.
  intros _ _ Hcanon Habs Hdir Hget Hstatus Hct.
  assert (Hres : resolve ("/data/../" +:+ t) = resolve ("/" +:+ t)).
  { unfold resolve, resolved_segments. rewrite split_slash_traversal. reflexivity. }
  assert (Hpar : parent ("/data/../" +:+ t) = parent ("/" +:+ t)).
  { unfold parent, resolved_segments. rewrite split_slash_traversal. reflexivity. }
  assert (Habs' : path_exists w ("/data/../" +:+ t) = false).
  { unfold path_exists in *. rewrite Hres. exact Habs. }
  rewrite <- Hpar in Hdir.
  eexists. split.
  - exact (fetch_text_run C url ("/data/../" +:+ t) w response
             eq_refl Habs' Hdir Hget Hstatus Hct).
  - simpl. rewrite Hres, Hcanon. reflexivity.
Qed.

Lemma fetch_writes_outside_data_witness :
  exists w',
    fetch_and_save_data (Scenes.tools Scenes.web_text Demo.git Scenes.one_row)
      "http://x/page" "/data/../etc/motd" Demo.populated = (Ok tt, w') /\
    fs w' = <["/etc/motd" := File "hello"]> (fs Demo.populated).
Proof.
  apply (fetch_writes_outside_data
           (Scenes.tools Scenes.web_text Demo.git Scenes.one_row)
           "http://x/page" "etc/motd" Demo.populated
           {| status_code := 200; content_type := Some "text/plain";
              text := "hello";
              json := Raise (MkExn (LibraryError "json") "not JSON") |}).
  - vm_compute; reflexivity.
  - reflexivity.
  - reflexivity.
  - vm_compute; reflexivity.
  - vm_compute; reflexivity.
  - reflexivity.
  - reflexivity.
  - reflexivity.
Defined.

(** X5: when the server answers with a status other than 200, the call
    raises [RuntimeError] whose message carries the status and the body, and
    no file is created: the store is as before and the only interaction was
    the request. *)
Theorem fetch_bad_status_leaves_no_file
    (C : Collab) (url save_path : string) (w : World) (response : Response) :
  startswith save_path "/data" = true ->
  path_exists w save_path = false ->
  requests_get C url = Ok response ->
  status_code response <> 200 ->
  fetch_and_save_data C url save_path w =
  (Raise (MkExn RuntimeError
            ("Failed to fetch data. HTTP " +:+ pretty (status_code response)
             +:+ ": " +:+ text response)),
   log w (HttpGet url)).
Proof.
  intros Hpre Habs Hget Hstatus.
  unfold fetch_and_save_data.
  rewrite (bind_ok _ _ _ _ _ (gate_passed save_path w Hpre Habs)).
  rewrite bind_emit, (bind_lift _ _ _ _ Hget).
  apply Z.eqb_neq in Hstatus. rewrite Hstatus. reflexivity.
Qed.

Lemma fetch_bad_status_leaves_no_file_witness :
  fetch_and_save_data (Scenes.tools Scenes.web_down Demo.git Scenes.one_row)
    "http://x/page" "/data/page.txt" Demo.fresh =
  (Raise (MkExn RuntimeError "Failed to fetch data. HTTP 503: busy"),
   log Demo.fresh (HttpGet "http://x/page")).
Proof.
  apply (fetch_bad_status_leaves_no_file
           (Scenes.tools Scenes.web_down Demo.git Scenes.one_row)
           "http://x/page" "/data/page.txt" Demo.fresh
           {| status_code := 503; content_type := None; text := "busy";
              json := Raise (MkExn (LibraryError "json") "not JSON") |}).
  - reflexivity.
  - vm_compute; reflexivity.
  - reflexivity.
  - discriminate.
Defined.

(** X6: a page whose content type has [application/json] anywhere in it, for
    instance followed by a charset, and whose body parses to an object is
    not saved as it came but as [json.dump] prints the parsed object with an
    indent of four, whatever the layout of the body was.  The save path is
    one that passes the gate and can be created: accepted by the operating
    system, written in resolved form, beginning with [/data], not existing,
    in a directory that exists. *)
Theorem fetch_saves_object_pretty
    (C : Collab) (url save_path : string) (w : World) (response : Response)
    (entries : list (string * PyVal)) :
  startswith save_path "/data" = true ->
  os_accepts save_path = true ->
  resolve save_path = save_path ->
  path_exists w save_path = false ->
  fs w !! parent save_path = Some Dir ->
  requests_get C url = Ok response ->
  status_code response = 200 ->
  (exists front back,
     content_type response = Some (front +:+ "application/json" +:+ back)) ->
  json response = Ok (PyDict entries) ->
  exists w',
    fetch_and_save_data C url save_path w = (Ok tt, w') /\
    fs w' = <[save_path := File (json_dump_indent4 (PyDict entries))]> (fs w).
Proof.
  intros Hpre _ Hres Habs Hdir Hget Hstatus (front & back & Hshape) Hjson.
  assert (Hct : contains (default EmptyString (content_type response))
                  "application/json" = true).
  { rewrite Hshape. apply contains_iff. exists front, back. reflexivity. }
  eexists. split.
  - erewrite fetch_reaches_open; try eassumption.
    simpl is_dict. cbv iota. unfold write_str. reflexivity.
  - simpl fs. rewrite lookup_insert_eq, insert_insert_eq, Hres. reflexivity.
Qed.

Lemma fetch_saves_object_pretty_witness :
  exists w',
    fetch_and_save_data (Demo.collab Demo.web_object) "http://x/ok" "/data/o.json"
      Demo.fresh = (Ok tt, w') /\
    fs w' = <["/data/o.json" := File (json_dump_indent4 (PyDict [("a", PyInt 1)]))]>
              (fs Demo.fresh).
Proof.
  apply (fetch_saves_object_pretty (Demo.collab Demo.web_object) "http://x/ok"
           "/data/o.json" Demo.fresh
           (Demo.json_response ("{" +:+ chr dquote +:+ "a" +:+ chr dquote +:+ ":1}")
              (PyDict [("a", PyInt 1)]))
           [("a", PyInt 1)]).
  - reflexivity.
  - reflexivity.
  - reflexivity.
  - vm_compute; reflexivity.
  - vm_compute; reflexivity.
  - reflexivity.
  - reflexivity.
  - exists EmptyString, EmptyString. reflexivity.
  - reflexivity.
Defined.

(** What [open] followed by one write can do to the store. *)
Lemma open_then_write (path data : string) (w : World) :
  fs w !! resolve path = None ->
  creates_at_most (resolve path) w
    (snd ((let* file := open_w path in write_str file data) w)).
Proof.
  intros Hnone. unfold bind, open_w. rewrite Hnone.
  destruct (fs w !! parent path) as [[]|]; simpl; try (left; reflexivity).
  right. split; [exact Hnone|]. exists data.
  rewrite lookup_insert_eq, insert_insert_eq. reflexivity.
Qed.

Lemma creates_at_most_same_store key w w' w'' :
  fs w' = fs w ->
  creates_at_most key w' w'' -> creates_at_most key w w''.
Proof.
  intros Hfs [H|[Hnone [c H]]]; [left | right]; rewrite <- Hfs; eauto.
Qed.

(** X7: whatever the server sends and however the call ends,
    [fetch_and_save_data] and [scrape_website] change the store in at most
    one way: the output file, which was not there, is created.  No other
    entry is added, altered or removed. *)
Theorem fetch_and_scrape_create_at_most_output
    (C : Collab) (url path : string) (w : World) :
  creates_at_most (resolve path) w (snd (fetch_and_save_data C url path w)) /\
  creates_at_most (resolve path) w (snd (scrape_website C url path w)).
Proof.
  split.
  - unfold fetch_and_save_data.
    destruct (enforce_security_cases path false w) as [Hgate|[msg Hgate]];
      [|rewrite (bind_raise _ _ _ _ _ Hgate); left; reflexivity].
    rewrite (bind_ok _ _ _ _ _ Hgate), bind_emit.
    pose proof (permitted_not_existing _ _ Hgate) as Hnone.
    apply (creates_at_most_same_store _ w (log w (HttpGet url)));
      [reflexivity|].
    set (w0 := log w (HttpGet url)) in *.
    assert (Hnone0 : fs w0 !! resolve path = None) by exact Hnone.
    clearbody w0. clear Hgate Hnone.
    unfold bind at 1, lift at 1.
    destruct (requests_get C url) as [response|e]; [|left; reflexivity].
    destruct (negb (status_code response =? 200)); [left; reflexivity|].
    unfold bind at 1.
    destruct ((if contains (default EmptyString (content_type response))
                    "application/json"
               then lift (json response) else ret (PyStr (text response))) w0)
      as [[data|e] w1] eqn:Hdata.
    + assert (w1 = w0) as ->.
      { destruct (contains _ _); unfold lift, ret in Hdata; congruence. }
      destruct (is_dict data); [apply open_then_write; exact Hnone0|].
      destruct data; try (apply open_then_write; exact Hnone0);
        unfold bind, open_w, file_write, raise; rewrite Hnone0;
        (destruct (fs w0 !! parent path) as [[]|]; simpl;
         try (left; reflexivity));
        right; (split; [exact Hnone0|]); eexists; reflexivity.
    + assert (w1 = w0) as ->.
      { destruct (contains _ _); unfold lift, ret in Hdata; congruence. }
      left; reflexivity.
  - unfold scrape_website.
    destruct (enforce_security_cases path false w) as [Hgate|[msg Hgate]];
      [|rewrite (bind_raise _ _ _ _ _ Hgate); left; reflexivity].
    rewrite (bind_ok _ _ _ _ _ Hgate), bind_emit.
    pose proof (permitted_not_existing _ _ Hgate) as Hnone.
    unfold bind at 1, lift at 1.
    destruct (requests_get C url) as [response|e]; [|left; reflexivity].
    destruct (negb (status_code response =? 200)); [left; reflexivity|].
    rewrite bind_emit.
    apply (creates_at_most_same_store _ w
             (log (log w (HttpGet url)) (LibCall "BeautifulSoup.get_text")));
      [reflexivity|].
    apply open_then_write. exact Hnone.
Qed.

(** *** What a call leaves behind *)

Lemma bind_success {A B} (m : M A) (k : A -> M B) w b w1 :
  bind m k w = (Ok b, w1) ->
  exists a w', m w = (Ok a, w') /\ k a w' = (Ok b, w1).
Proof.
  unfold bind. destruct (m w) as [[a|e] w']; [eauto | discriminate].
Qed.

Lemma try_except_success {A} (body : M A) (handler : Exn -> M A) w a w1 :
  try_except body handler w = (Ok a, w1) ->
  body w = (Ok a, w1) \/
  exists e w', body w = (Raise e, w') /\ handler e w' = (Ok a, w1).
Proof.
  unfold try_except. destruct (body w) as [[a'|e] w']; [left | right]; eauto.
Qed.

Lemma gate_success p b w r w1 :
  enforce_security p b w = (Ok r, w1) -> w1 = w.
Proof.
  destruct (enforce_security_cases p b w) as [H|[msg H]]; rewrite H; congruence.
Qed.

(** Opening the output and writing to it: on success the output exists. *)
Lemma open_write_success path data w w1 :
  (let* file := open_w path in write_str file data) w = (Ok tt, w1) ->
  path_exists w1 path = true.
Proof.
  intros H. apply bind_success in H as (file & w' & Hopen & Hwrite).
  assert (file = resolve path) as ->.
  { unfold open_w in Hopen.
    destruct (fs w !! resolve path) as [[]|];
      destruct (fs w !! parent path) as [[]|]; congruence. }
  unfold write_str in Hwrite. injection Hwrite as <-.
  unfold path_exists. simpl. rewrite lookup_insert_eq.
  apply bool_decide_eq_true_2. eauto.
Qed.

Lemma fetch_success_creates (C : Collab) url path w w1 :
  fetch_and_save_data C url path w = (Ok tt, w1) -> path_exists w1 path = true.
Proof.
  unfold fetch_and_save_data. intros H.
  apply bind_success in H as (? & w' & _ & H).
  apply bind_success in H as (? & ? & _ & H).
  apply bind_success in H as (response & ? & _ & H).
  destruct (negb (status_code response =? 200)); [discriminate H|].
  apply bind_success in H as (data & w2 & _ & H).
  destruct (is_dict data); [exact (open_write_success _ _ _ _ H)|].
  destruct data; try exact (open_write_success _ _ _ _ H);
    apply bind_success in H as (? & ? & _ & H); discriminate H.
Qed.

Lemma scrape_success_creates (C : Collab) url path w w1 :
  scrape_website C url path w = (Ok tt, w1) -> path_exists w1 path = true.
Proof.
  unfold scrape_website. intros H.
  apply bind_success in H as (? & w' & _ & H).
  apply bind_success in H as (? & ? & _ & H).
  apply bind_success in H as (response & ? & _ & H).
  destruct (negb (status_code response =? 200)); [discriminate H|].
  apply bind_success in H as (? & ? & _ & H).
  exact (open_write_success _ _ _ _ H).
Qed.

Lemma sql_success_creates (C : Collab) db_path query path w w1 :
  execute_sql_query C db_path query path w = (Ok tt, w1) ->
  path_exists w1 path = true.
Proof.
  unfold execute_sql_query. intros H.
  apply bind_success in H as (? & ? & _ & H).
  apply bind_success in H as (? & ? & _ & H).
  apply bind_success in H as (conn & ? & _ & H).
  apply bind_success in H as (output_data & ? & _ & H).
  exact (open_write_success _ _ _ _ H).
Qed.

Lemma image_success_creates (C : Collab) image_path path resize w w1 :
  process_image C image_path path resize w = (Ok tt, w1) ->
  path_exists w1 path = true.
Proof.
  unfold process_image. intros H.
  apply bind_success in H as (? & ? & _ & H).
  apply bind_success in H as (? & ? & _ & H).
  apply try_except_success in H as [H|(e & ? & _ & H)]; [|discriminate H].
  apply bind_success in H as (raw & ? & _ & H).
  apply bind_success in H as (? & ? & _ & H).
  apply bind_success in H as (img & ? & _ & H).
  apply bind_success in H as (img' & ? & _ & H).
  apply bind_success in H as (? & ? & _ & H).
  apply bind_success in H as (encoded & ? & _ & H).
  exact (open_write_success _ _ _ _ H).
Qed.

Lemma transcribe_success_creates (C : Collab) audio_path path w w1 :
  transcribe_audio C audio_path path w = (Ok tt, w1) ->
  path_exists w1 path = true.
Proof.
  unfold transcribe_audio. intros H.
  apply bind_success in H as (? & ? & _ & H).
  apply bind_success in H as (? & ? & _ & H).
  apply bind_success in H as (? & ? & _ & H).
  apply bind_success in H as (model & ? & _ & H).
  apply bind_success in H as (raw & ? & _ & H).
  apply bind_success in H as (? & ? & _ & H).
  apply bind_success in H as (result_text & ? & _ & H).
  exact (open_write_success _ _ _ _ H).
Qed.

Lemma convert_success_creates (C : Collab) md_path path w w1 :
  convert_md_to_html C md_path path w = (Ok tt, w1) ->
  path_exists w1 path = true.
Proof.
  unfold convert_md_to_html. intros H.
  apply bind_success in H as (? & ? & _ & H).
  apply bind_success in H as (? & ? & _ & H).
  apply try_except_success in H as [H|(e & ? & _ & H)]; [|discriminate H].
  apply bind_success in H as (source & ? & _ & H).
  apply bind_success in H as (? & ? & _ & H).
  apply bind_success in H as (html & ? & _ & H).
  exact (open_write_success _ _ _ _ H).
Qed.

(** X8: an operation that writes its own output can succeed only once.  When
    a call returns normally the output exists, so the same call in the world
    it left is refused with [PermissionError] and changes nothing; to run it
    again the caller has to pick a new output path. *)
Theorem successful_call_cannot_be_repeated
    (C : Collab) (op : Operation) (path : string) (w w1 : World) :
  output_path op = Some path ->
  call C op w = (Ok tt, w1) ->
  path_exists w1 path = true /\
  exists msg, call C op w1 = (Raise (MkExn PermissionError msg), w1).
Proof.
  intros Hout Hrun.
  assert (Hex : path_exists w1 path = true).
  { destruct op; simpl in Hout; try discriminate Hout;
      injection Hout as <-; simpl in Hrun.
    - exact (fetch_success_creates _ _ _ _ _ Hrun).
    - exact (sql_success_creates _ _ _ _ _ _ Hrun).
    - exact (scrape_success_creates _ _ _ _ _ Hrun).
    - exact (image_success_creates _ _ _ _ _ _ Hrun).
    - exact (transcribe_success_creates _ _ _ _ _ Hrun).
    - exact (convert_success_creates _ _ _ _ _ Hrun). }
  split; [exact Hex|].
  apply (call_denied C op w1 path).
  - destruct op; simpl in Hout; try discriminate Hout;
      injection Hout as <-; simpl; auto.
  - apply existing_path_denied. exact Hex.
Qed.

Lemma successful_call_cannot_be_repeated_witness :
  let op := Scrape "http://x/page" "/data/page.txt" in
  let C := Scenes.tools Scenes.web_text Demo.git Scenes.one_row in
  path_exists (snd (call C op Demo.fresh)) "/data/page.txt" = true /\
  exists msg,
    call C op (snd (call C op Demo.fresh))
    = (Raise (MkExn PermissionError msg), snd (call C op Demo.fresh)).
Proof.
  intros op C.
  apply (successful_call_cannot_be_repeated C op "/data/page.txt" Demo.fresh
           (snd (call C op Demo.fresh))).
  - reflexivity.
  - vm_compute; reflexivity.
Defined.

(** *** Rows as dictionaries *)

Local Open Scope list_scope.

Lemma assoc_get_set entries key v key' :
  assoc_get (assoc_set entries key v) key' =
  if String.eqb key key' then Some v else assoc_get entries key'.
Proof.
  induction entries as [|[k old] rest IH]; simpl.
  - reflexivity.
  - destruct (String.eqb k key) eqn:Hk; simpl.
    + apply String.eqb_eq in Hk as ->. destruct (String.eqb key key'); reflexivity.
    + rewrite IH. destruct (String.eqb k key') eqn:Hk'; [|reflexivity].
      apply String.eqb_eq in Hk' as ->. rewrite String.eqb_sym, Hk. reflexivity.
Qed.

Lemma assoc_set_fresh entries key v :
  key ∉ entries.*1 -> assoc_set entries key v = entries ++ [(key, v)].
Proof.
  induction entries as [|[k old] rest IH]; simpl; intros Hnot; [reflexivity|].
  apply not_elem_of_cons in Hnot as [Hne Hnot].
  destruct (String.eqb k key) eqn:Hk.
  - apply String.eqb_eq in Hk. congruence.
  - rewrite (IH Hnot). reflexivity.
Qed.

Lemma assoc_set_keys entries key v :
  (assoc_set entries key v).*1 =
  if bool_decide (key ∈ entries.*1) then entries.*1 else entries.*1 ++ [key].
Proof.
  induction entries as [|[k old] rest IH]; [reflexivity|].
  cbn [assoc_set]. destruct (String.eqb k key) eqn:Hk; rewrite !fmap_cons; cbn [fst].
  - apply String.eqb_eq in Hk as ->.
    rewrite bool_decide_eq_true_2 by apply list_elem_of_here. reflexivity.
  - apply String.eqb_neq in Hk. rewrite IH.
    destruct (bool_decide (key ∈ rest.*1)) eqn:Hin.
    + apply bool_decide_eq_true_1 in Hin.
      rewrite bool_decide_eq_true_2 by (apply list_elem_of_further; exact Hin).
      reflexivity.
    + apply bool_decide_eq_false_1 in Hin.
      rewrite bool_decide_eq_false_2; [reflexivity|].
      intros [?|?]%elem_of_cons; congruence.
Qed.

Lemma dict_of_pairs_snoc pairs key v :
  dict_of_pairs (pairs ++ [(key, v)]) = assoc_set (dict_of_pairs pairs) key v.
Proof. unfold dict_of_pairs. rewrite fold_left_app. reflexivity. Qed.

Lemma fold_assoc_set_fresh pairs acc :
  NoDup (acc.*1 ++ pairs.*1) ->
  fold_left (fun acc kv => assoc_set acc (fst kv) (snd kv)) pairs acc = acc ++ pairs.
Proof.
  revert acc. induction pairs as [|[k v] rest IH]; intros acc Hnd; simpl.
  - rewrite app_nil_r. reflexivity.
  - simpl in Hnd. apply NoDup_app in Hnd as (Hacc & Hdisj & Hrest).
    apply NoDup_cons in Hrest as [Hk Hrest].
    assert (Hfresh : k ∉ acc.*1).
    { intros Hin. apply (Hdisj k Hin). apply list_elem_of_here. }
    rewrite (assoc_set_fresh acc k v Hfresh), IH.
    + rewrite <- app_assoc. reflexivity.
    + rewrite fmap_app. simpl. rewrite <- app_assoc. simpl.
      apply NoDup_app. split; [exact Hacc|]. split.
      * intros x Hx [->|Hin]%elem_of_cons; [exact (Hfresh Hx)|].
        apply (Hdisj x Hx). apply list_elem_of_further. exact Hin.
      * apply NoDup_cons. split; assumption.
Qed.

Lemma zip_pairs_keys columns row :
  exists rest, columns = (zip_pairs columns row).*1 ++ rest.
Proof.
  revert row. induction columns as [|c cs IH]; intros row; simpl.
  - exists []. reflexivity.
  - destruct row as [|x xs]; simpl.
    + exists (c :: cs). reflexivity.
    + destruct (IH xs) as [rest H]. exists rest.
      change (c :: cs = c :: ((zip_pairs cs xs).*1 ++ rest)).
      f_equal. exact H.
Qed.

(** X10: when the column names of a result are all different,
    [execute_sql_query] turns each row into the dictionary that pairs the
    names with the values, in the order of the columns; values beyond the
    last column name are dropped by [zip]. *)
Theorem rows_become_dicts_in_column_order (q : QueryResult) (columns : list string) :
  description q = Some columns ->
  NoDup columns ->
  row_dicts q = map (fun row => PyDict (zip_pairs columns row)) (rows q).
Proof.
  intros Hdesc Hnd. unfold row_dicts. rewrite Hdesc. simpl.
  apply map_ext. intros row. f_equal.
  unfold dict_of_pairs. rewrite fold_assoc_set_fresh; [reflexivity|].
  simpl. destruct (zip_pairs_keys columns row) as [rest Hrest].
  rewrite Hrest in Hnd. apply NoDup_app in Hnd as (H & _ & _). exact H.
Qed.

Lemma rows_become_dicts_in_column_order_witness :
  row_dicts {| description := Some ["id"; "name"];
               rows := [[PyInt 7; PyStr "x"; PyNone]] |}
  = [PyDict [("id", PyInt 7); ("name", PyStr "x")]].
Proof.
  apply (rows_become_dicts_in_column_order
           {| description := Some ["id"; "name"];
              rows := [[PyInt 7; PyStr "x"; PyNone]] |} ["id"; "name"]).
  - reflexivity.
  - apply NoDup_cons. split; [|apply NoDup_singleton].
    intros H. apply list_elem_of_singleton in H. discriminate H.
Defined.

(** X11: when two columns of a result carry the same name, as in
    [SELECT a, a], the dictionary of a row has that name once, and under it
    the value of the last such column: the earlier values are lost.  In
    general the keys of the dictionary are all different and looking a name
    up gives what looking it up from the right in the zipped row gives. *)
Theorem duplicate_columns_keep_last_value (columns : list string) (row : list PyVal) :
  let entries := dict_of_pairs (zip_pairs columns row) in
  NoDup entries.*1 /\
  forall name, assoc_get entries name = assoc_get (rev (zip_pairs columns row)) name.
Proof.
  intros entries. subst entries.
  induction (zip_pairs columns row) as [|[k v] pairs [IHnd IHget]] using rev_ind.
  - split; [apply NoDup_nil_2 | reflexivity].
  - rewrite dict_of_pairs_snoc. split.
    + rewrite assoc_set_keys.
      destruct (bool_decide (k ∈ (dict_of_pairs pairs).*1)) eqn:Hin; [exact IHnd|].
      apply bool_decide_eq_false_1 in Hin.
      apply NoDup_app. split; [exact IHnd|]. split; [|apply NoDup_singleton].
      intros x Hx Hx'. apply list_elem_of_singleton in Hx'. congruence.
    + intros name. rewrite assoc_get_set, rev_app_distr. simpl.
      rewrite IHget. reflexivity.
Qed.

(** *** Running a query *)

Lemma bind_on_store {A B} (f : gmap string Node -> Result A * gmap string Node)
    (k : A -> M B) w a m :
  f (fs w) = (Ok a, m) -> bind (on_store f) k w = k a (set_fs w m).
Proof. intros H. unfold bind, on_store. rewrite H. reflexivity. Qed.

(** The connection call and the name of the engine, as [execute_sql_query]
    picks them from the end of [db_path]. *)
Lemma sql_after_gates (C : Collab) db_path query output_filename w :
  startswith db_path "/data" = true ->
  path_exists w db_path = false ->
  startswith output_filename "/data" = true ->
  path_exists w output_filename = false ->
  execute_sql_query C db_path query output_filename w =
  (let* conn :=
     (if endswith db_path ".db"
      then emit (DbConnect "sqlite3" db_path) ;; on_store (sqlite3_connect C db_path)
      else emit (DbConnect "duckdb" db_path) ;; on_store (duckdb_connect C db_path)) in
   let* output_data :=
     try_finally
       (try_except
          (emit (DbExecute query) ;;
           let* q := on_store (cursor_execute C conn query) in
           ret (row_dicts q))
          (fun e => raise RuntimeError ("SQL execution failed: " +:+ str_of_exn e)))
       (emit DbClose) in
   let* file := open_w output_filename in
   write_str file (json_dump_indent4 (PyList output_data))) w.
Proof.
  intros Hd Hdx Ho Hox. unfold execute_sql_query.
  rewrite (bind_ok _ _ _ _ _ (gate_passed db_path w Hd Hdx)).
  rewrite (bind_ok _ _ _ _ _ (gate_passed output_filename w Ho Hox)).
  reflexivity.
Qed.

(** X12: when the statement fails, [execute_sql_query] raises [RuntimeError]
    with the message of the database after [SQL execution failed: ], the
    connection has been closed, and no output file was opened: the store is
    the one the database left. *)
Theorem failed_query_closes_and_writes_nothing
    (C : Collab) (db_path query output_filename : string) (w : World)
    (conn : Conn C) (m1 m2 : gmap string Node) (e : Exn) :
  let sqlite := endswith db_path ".db" in
  startswith db_path "/data" = true ->
  path_exists w db_path = false ->
  startswith output_filename "/data" = true ->
  path_exists w output_filename = false ->
  (if sqlite then sqlite3_connect C db_path (fs w)
   else duckdb_connect C db_path (fs w)) = (Ok conn, m1) ->
  cursor_execute C conn query m1 = (Raise e, m2) ->
  execute_sql_query C db_path query output_filename w =
  (Raise (MkExn RuntimeError ("SQL execution failed: " +:+ exn_msg e)),
   {| fs := m2;
      trace := trace w ++ [DbConnect (if sqlite then "sqlite3" else "duckdb") db_path;
                           DbExecute query; DbClose] |}).
Proof.
  intros sqlite Hd Hdx Ho Hox Hconn Hexec. subst sqlite.
  rewrite sql_after_gates by assumption.
  destruct (endswith db_path ".db");
    rewrite (bind_ok _ _ _ conn (set_fs (log w (DbConnect _ db_path)) m1))
      by (rewrite bind_emit; unfold on_store; simpl; rewrite Hconn; reflexivity);
    unfold bind, try_finally, try_except, emit, on_store, raise, log, set_fs;
    simpl; rewrite Hexec; simpl; rewrite <- !app_assoc; reflexivity.
Qed.

Lemma failed_query_closes_and_writes_nothing_witness :
  execute_sql_query (Scenes.tools Scenes.web_text Demo.git Scenes.no_table)
    "/data/new.db" "select * from t" "/data/out.json" Demo.fresh =
  (Raise (MkExn RuntimeError "SQL execution failed: no such table: t"),
   {| fs := fs Demo.fresh;
      trace := [DbConnect "sqlite3" "/data/new.db";
                DbExecute "select * from t"; DbClose] |}).
Proof.
  apply (failed_query_closes_and_writes_nothing
           (Scenes.tools Scenes.web_text Demo.git Scenes.no_table)
           "/data/new.db" "select * from t" "/data/out.json" Demo.fresh
           tt (fs Demo.fresh) (fs Demo.fresh)
           (MkExn (LibraryError "sqlite3") "no such table: t")).
  - reflexivity.
  - vm_compute; reflexivity.
  - reflexivity.
  - vm_compute; reflexivity.
  - reflexivity.
  - reflexivity.
Defined.



(** *** Relating the worlds before and after *)

Section Respects.
Context (R : World -> World -> Prop).
Hypothesis R_refl : forall w, R w w.
Hypothesis R_trans : forall w1 w2 w3, R w1 w2 -> R w2 w3 -> R w1 w3.

Lemma respects_ret {A} (a : A) : respects R (ret a).
Proof. intros w. apply R_refl. Qed.

Lemma respects_raise {A} kind msg : respects R (@raise A kind msg).
Proof. intros w. apply R_refl. Qed.

Lemma respects_lift {A} (r : Result A) : respects R (lift r).
Proof. intros w. apply R_refl. Qed.

Lemma respects_exists path : respects R (os_path_exists path).
Proof. intros w. apply R_refl. Qed.

Lemma respects_gate p b : respects R (enforce_security p b).
Proof.
  intros w. destruct (enforce_security_cases p b w) as [H|[msg H]];
    rewrite H; apply R_refl.
Qed.

Lemma respects_bind {A B} (m : M A) (k : A -> M B) :
  respects R m -> (forall a, respects R (k a)) -> respects R (bind m k).
Proof.
  intros Hm Hk w. unfold bind. specialize (Hm w).
  destruct (m w) as [[a|e] w']; simpl in *; [|exact Hm].
  eapply R_trans; [exact Hm | apply Hk].
Qed.

Lemma respects_try_except {A} (body : M A) (handler : Exn -> M A) :
  respects R body -> (forall e, respects R (handler e)) ->
  respects R (try_except body handler).
Proof.
  intros Hb Hh w. unfold try_except. specialize (Hb w).
  destruct (body w) as [[a|e] w']; simpl in *; [exact Hb|].
  eapply R_trans; [exact Hb | apply Hh].
Qed.

Lemma respects_try_finally {A} (body : M A) (cleanup : M unit) :
  respects R body -> respects R cleanup -> respects R (try_finally body cleanup).
Proof.
  intros Hb Hc w. unfold try_finally. specialize (Hb w).
  destruct (body w) as [r w']. specialize (Hc w').
  destruct (cleanup w') as [[u|e] w'']; simpl in *; eapply R_trans; eassumption.
Qed.

End Respects.

Lemma bind_assoc {A B D} (m : M A) (f : A -> M B) (g : B -> M D) w :
  bind (bind m f) g w = bind m (fun a => bind (f a) g) w.
Proof. unfold bind. destruct (m w) as [[a|e] w']; reflexivity. Qed.

(** **** The trace only grows *)

Lemma trace_grows_refl w : trace_grows w w.
Proof. exists []. rewrite app_nil_r. reflexivity. Qed.

Lemma trace_grows_trans w1 w2 w3 :
  trace_grows w1 w2 -> trace_grows w2 w3 -> trace_grows w1 w3.
Proof.
  intros [l1 H1] [l2 H2]. exists (l1 ++ l2). rewrite H2, H1, app_assoc.
  reflexivity.
Qed.

Lemma grows_emit e : respects trace_grows (emit e).
Proof. intros w. exists [e]. reflexivity. Qed.

Lemma grows_on_store {A} (f : gmap string Node -> Result A * gmap string Node) :
  respects trace_grows (on_store f).
Proof.
  intros w. unfold on_store. destruct (f (fs w)). exists []. simpl.
  rewrite app_nil_r. reflexivity.
Qed.

Lemma grows_open_w path : respects trace_grows (open_w path).
Proof.
  intros w. unfold open_w.
  destruct (fs w !! resolve path) as [[]|];
    destruct (fs w !! parent path) as [[]|];
    first [apply trace_grows_refl | eexists; reflexivity].
Qed.

Lemma grows_write_str key data : respects trace_grows (write_str key data).
Proof. intros w. eexists. reflexivity. Qed.

Lemma grows_subprocess (C : Collab) argv :
  respects trace_grows (subprocess_run_check C argv).
Proof.
  unfold subprocess_run_check.
  apply (respects_bind _ trace_grows_trans); [apply grows_emit|].
  intros _.
  apply (respects_bind _ trace_grows_trans);
    [apply grows_on_store|].
  intros code. destruct (code =? 0);
    [apply respects_ret | apply respects_raise]; apply trace_grows_refl.
Qed.

Ltac grows :=
  repeat first
    [ apply grows_subprocess
    | match goal with
      | |- respects _ (if ?c then _ else _) => destruct c
      | |- respects _ (match ?c with Some _ => _ | None => _ end) => destruct c
      end
    | apply (respects_bind _ trace_grows_trans); [|intros ?]
    | apply (respects_try_except _ trace_grows_trans); [|intros ?]
    | apply (respects_try_finally _ trace_grows_trans)
    | apply (respects_ret _ trace_grows_refl)
    | apply (respects_raise _ trace_grows_refl)
    | apply (respects_lift _ trace_grows_refl)
    | apply (respects_exists _ trace_grows_refl)
    | apply (respects_gate _ trace_grows_refl)
    | apply grows_emit
    | apply grows_on_store
    | apply grows_open_w
    | apply grows_write_str ].

(** X14: once both paths have passed the gate, the first thing
    [execute_sql_query] does is to open the database, with sqlite3 exactly
    when [db_path] ends in [.db] and with duckdb for every other name. *)
Theorem engine_chosen_by_suffix
    (C : Collab) (db_path query output_filename : string) (w : World) :
  startswith db_path "/data" = true ->
  path_exists w db_path = false ->
  startswith output_filename "/data" = true ->
  path_exists w output_filename = false ->
  exists engine rest,
    trace (snd (execute_sql_query C db_path query output_filename w))
    = trace w ++ DbConnect engine db_path :: rest /\
    (((exists front, db_path = front +:+ ".db") /\ engine = "sqlite3") \/
     ((forall front, db_path <> front +:+ ".db") /\ engine = "duckdb")).
Proof.
  intros Hd Hdx Ho Hox. rewrite sql_after_gates by assumption.
  destruct (endswith db_path ".db") eqn:Hsuffix.
  - exists "sqlite3".
    rewrite bind_assoc, bind_emit.
    match goal with |- context [snd (?m (log w ?e))] =>
      assert (Hg : respects trace_grows m) by grows;
      destruct (Hg (log w e)) as [rest Hrest]
    end.
    exists rest. split.
    + rewrite Hrest. simpl. rewrite <- app_assoc. reflexivity.
    + left. split; [apply endswith_iff; exact Hsuffix | reflexivity].
  - exists "duckdb".
    rewrite bind_assoc, bind_emit.
    match goal with |- context [snd (?m (log w ?e))] =>
      assert (Hg : respects trace_grows m) by grows;
      destruct (Hg (log w e)) as [rest Hrest]
    end.
    exists rest. split.
    + rewrite Hrest. simpl. rewrite <- app_assoc. reflexivity.
    + right. split; [|reflexivity].
      intros front Heq.
      assert (endswith db_path ".db" = true) by (apply endswith_iff; eauto).
      congruence.
Qed.

Lemma engine_chosen_by_suffix_witness :
  exists engine rest,
    trace (snd (execute_sql_query (Demo.collab Demo.web_object)
                  "/data/shop.sqlite" "select 1" "/data/out.json" Demo.fresh))
    = trace Demo.fresh ++ DbConnect engine "/data/shop.sqlite" :: rest /\
    (((exists front, "/data/shop.sqlite" = front +:+ ".db") /\ engine = "sqlite3") \/
     ((forall front, "/data/shop.sqlite" <> front +:+ ".db") /\ engine = "duckdb")).
Proof.
  apply (engine_chosen_by_suffix (Demo.collab Demo.web_object)
           "/data/shop.sqlite" "select 1" "/data/out.json" Demo.fresh).
  - reflexivity.
  - vm_compute; reflexivity.
  - reflexivity.
  - vm_compute; reflexivity.
Defined.

(** *** Cloning *)

Lemma permitted_absent filepath w :
  enforce_security filepath false w = (Ok true, w) -> path_exists w filepath = false.
Proof.
  intros H. unfold path_exists. rewrite (permitted_not_existing _ _ H).
  apply bool_decide_eq_false_2. intros [n Hn]. discriminate Hn.
Qed.

(** X15: [clone_git_repo] never commits into a repository that was already
    there.  Either the gate refuses and nothing is run, or the first command
    is [git clone]: the test for an existing repository that follows the gate
    always finds none. *)
Theorem clone_is_never_skipped (C : Collab) (repo_url commit_message : string) (w : World) :
  (exists msg,
     clone_git_repo C repo_url commit_message w
     = (Raise (MkExn PermissionError msg), w)) \/
  (exists rest,
     trace (snd (clone_git_repo C repo_url commit_message w))
     = trace w ++ Subprocess ["git"; "clone"; repo_url; "/data/repo"] :: rest).
Proof.
  unfold clone_git_repo.
  destruct (enforce_security_cases repo_path false w) as [Hgate|[msg Hgate]].
  - right. rewrite (bind_ok _ _ _ _ _ Hgate).
    unfold bind at 1, os_path_exists at 1.
    rewrite (permitted_absent _ _ Hgate). cbv iota beta. simpl negb. cbv iota.
    unfold subprocess_run_check at 1.
    rewrite !bind_assoc, bind_emit.
    match goal with |- context [snd (?m (log w ?e))] =>
      assert (Hg : respects trace_grows m) by grows;
      destruct (Hg (log w e)) as [rest Hrest]
    end.
    exists rest. rewrite Hrest. simpl. rewrite <- app_assoc. reflexivity.
  - left. exists msg. apply bind_raise. exact Hgate.
Qed.

(** X16: when [git clone] exits with a status other than 0, the call raises
    the [CalledProcessError] of [subprocess.run] for that command and status,
    and neither [git add] nor [git commit] is run; whatever the clone left
    in the store stays. *)
Theorem failed_clone_stops_the_call
    (C : Collab) (repo_url commit_message : string) (w : World)
    (code : Z) (m : gmap string Node) :
  path_exists w "/data/repo" = false ->
  subprocess_run C ["git"; "clone"; repo_url; "/data/repo"] (fs w) = (Ok code, m) ->
  code <> 0 ->
  clone_git_repo C repo_url commit_message w =
  (Raise (MkExn CalledProcessError
            (called_process_error_str C
               ["git"; "clone"; repo_url; "/data/repo"] code)),
   {| fs := m;
      trace := trace w ++ [Subprocess ["git"; "clone"; repo_url; "/data/repo"]] |}).
Proof.
  intros Habs Hrun Hcode. unfold clone_git_repo.
  rewrite (bind_ok _ _ _ _ _ (gate_passed repo_path w eq_refl Habs)).
  unfold bind at 1, os_path_exists at 1.
  change (path_exists w repo_path) with (path_exists w "/data/repo").
  rewrite Habs. cbv iota beta. simpl negb. cbv iota.
  apply bind_raise. unfold subprocess_run_check.
  rewrite bind_emit. unfold bind, on_store. simpl fs.
  change repo_path with "/data/repo". rewrite Hrun.
  apply Z.eqb_neq in Hcode. rewrite Hcode. reflexivity.
Qed.

Lemma failed_clone_stops_the_call_witness :
  clone_git_repo (Scenes.tools Scenes.web_text Scenes.git_failing Scenes.one_row)
    "http://x/r.git" "update" Demo.fresh =
  (Raise (MkExn CalledProcessError
     "Command '['git', 'clone', 'http://x/r.git', '/data/repo']' returned non-zero exit status 128."),
   {| fs := fs Demo.fresh;
      trace := [Subprocess ["git"; "clone"; "http://x/r.git"; "/data/repo"]] |}).
Proof.
  apply (failed_clone_stops_the_call
           (Scenes.tools Scenes.web_text Scenes.git_failing Scenes.one_row)
           "http://x/r.git" "update" Demo.fresh 128 (fs Demo.fresh)).
  - vm_compute; reflexivity.
  - reflexivity.
  - discriminate.
Defined.

(** *** Operations that read their input *)

Lemma read_after_gate_fails {A} path (k : string -> M A) w :
  enforce_security path false w = (Ok true, w) ->
  bind (read_file path) k w =
  (Raise (MkExn FileNotFoundError
            (errno_msg "[Errno 2] No such file or directory" path)), w).
Proof.
  intros Hgate. apply bind_raise, read_file_missing, permitted_not_existing.
  exact Hgate.
Qed.

(** X17: [process_image] and [convert_md_to_html] cannot produce anything.
    Every call raises, either the [PermissionError] of the gate or the
    [RuntimeError] that wraps the failure to read the input, and the store is
    left as it was.  [convert_md_to_html] leaves the whole world as it was:
    it never gets to the markdown library. *)
Theorem conversions_always_fail
    (C : Collab) (input output : string) (resize : option (Z * Z)) (w : World) :
  (exists e w',
     process_image C input output resize w = (Raise e, w') /\
     fs w' = fs w /\
     (exn_kind e = PermissionError \/ exn_kind e = RuntimeError)) /\
  (exists e,
     convert_md_to_html C input output w = (Raise e, w) /\
     (exn_kind e = PermissionError \/ exn_kind e = RuntimeError)).
Proof.
  split.
  - unfold process_image.
    destruct (enforce_security_cases input false w) as [Hp|[msg Hp]];
      [|eexists _, w; split; [apply bind_raise; exact Hp|];
        split; [reflexivity | left; reflexivity]].
    rewrite (bind_ok _ _ _ _ _ Hp).
    destruct (enforce_security_cases output false w) as [Hq|[msg Hq]];
      [|eexists _, w; split; [apply bind_raise; exact Hq|];
        split; [reflexivity | left; reflexivity]].
    rewrite (bind_ok _ _ _ _ _ Hq).
    rewrite (try_except_raise _ _ _ _ _
               (read_missing_after_emit _ input _ w (permitted_not_existing _ _ Hp))).
    eexists _, _. split; [reflexivity|]. split; [reflexivity | right; reflexivity].
  - unfold convert_md_to_html.
    destruct (enforce_security_cases input false w) as [Hp|[msg Hp]];
      [|eexists; split; [apply bind_raise; exact Hp | left; reflexivity]].
    rewrite (bind_ok _ _ _ _ _ Hp).
    destruct (enforce_security_cases output false w) as [Hq|[msg Hq]];
      [|eexists; split; [apply bind_raise; exact Hq | left; reflexivity]].
    rewrite (bind_ok _ _ _ _ _ Hq).
    rewrite (try_except_raise _ _ _ _ _ (read_after_gate_fails input _ w Hp)).
    eexists. split; [reflexivity | right; reflexivity].
Qed.

(** X18: [transcribe_audio] cannot return normally: every call raises.  When
    the gate refuses, nothing has happened; otherwise the first thing done
    is to load the whisper model, before the missing audio file is
    noticed. *)
Theorem transcription_always_fails
    (C : Collab) (audio_path output_path : string) (w : World) :
  exists e w',
    transcribe_audio C audio_path output_path w = (Raise e, w') /\
    ((exn_kind e = PermissionError /\ w' = w) \/
     exists rest, trace w' = trace w ++ LibCall "whisper.load_model" :: rest).
Proof.
  unfold transcribe_audio.
  destruct (enforce_security_cases audio_path false w) as [Hp|[msg Hp]];
    [|eexists _, w; split; [apply bind_raise; exact Hp | left; split; reflexivity]].
  rewrite (bind_ok _ _ _ _ _ Hp).
  destruct (enforce_security_cases output_path false w) as [Hq|[msg Hq]];
    [|eexists _, w; split; [apply bind_raise; exact Hq | left; split; reflexivity]].
  rewrite (bind_ok _ _ _ _ _ Hq), bind_emit.
  destruct (whisper_load_model C "small") as [model|e].
  - unfold bind at 1, lift at 1. cbv iota beta.
    rewrite (read_missing_after_emit _ audio_path _
               (log w (LibCall "whisper.load_model"))
               (permitted_not_existing _ _ Hp)).
    eexists _, _. split; [reflexivity|]. right.
    exists [LibCall "model.transcribe"]. simpl. rewrite <- app_assoc. reflexivity.
  - exists e, (log w (LibCall "whisper.load_model")).
    split; [reflexivity|]. right. exists []. reflexivity.
Qed.

Lemma filter_csv_store (C : Collab) (data : PyVal) (w : World) :
  exists r w', filter_csv C data w = (r, w') /\ fs w' = fs w /\
               flask_response r = (fst (flask_response r), 500).
Proof.
  destruct data; try (eexists _, _; split; [reflexivity|]; split; reflexivity).
  unfold filter_csv, dict_get, bind at 1 2 3, ret at 1 2 3. cbv beta iota.
  destruct (default PyNone (assoc_get entries "csv_path"));
    try (eexists _, _; split; [reflexivity|]; split; reflexivity).
  destruct (enforce_security_cases s false w) as [Hgate|[msg Hgate]].
  - rewrite (bind_ok _ _ _ _ _ Hgate). unfold filter_csv_try.
    rewrite (try_except_raise _ _ _ _ _
               (read_missing_after_emit _ s _ w (permitted_not_existing _ _ Hgate))).
    eexists _, _. split; [reflexivity|]. split; reflexivity.
  - rewrite (bind_raise _ _ _ _ _ Hgate).
    eexists _, _. split; [reflexivity|]. split; reflexivity.
Qed.

(** X19: the view of [/filter_csv] has one answer.  Whatever value
    [request.json] returned, the status is 500 and the store is left as it
    was: the file cannot be read, so neither the 400 for an unknown column
    nor the filtered rows can ever be returned. *)
Theorem filter_csv_only_answers_500 (C : Collab) (data : PyVal) (w : World) :
  exists body w',
    serve_filter_csv C data w = ((body, 500), w') /\ fs w' = fs w.
Proof.
  destruct (filter_csv_store C data w) as (r & w' & Hrun & Hfs & Hstatus).
  exists (fst (flask_response r)), w'. split; [|exact Hfs].
  unfold serve_filter_csv. rewrite Hrun, Hstatus. reflexivity.
Qed.

(** *** Nothing that exists is lost *)
















(** *** Scraping *)

(** X21: [scrape_website], with an output path that passes the gate and can
    be created (accepted by the operating system, written in resolved form,
    beginning with [/data], not existing, in a directory that exists), saves
    the text that BeautifulSoup extracts from the page when the status is
    200; the text is text that UTF-8 can encode, as every string of the
    model is.  For any other status it raises [RuntimeError] whose message
    has the status but, unlike that of [fetch_and_save_data], not the body,
    and creates no file. *)
Theorem scrape_saves_text_or_reports_status
    (C : Collab) (url output_filename : string) (w : World) (response : Response) :
  let extracted := soup_get_text C (text response) in
  startswith output_filename "/data" = true ->
  os_accepts output_filename = true ->
  resolve output_filename = output_filename ->
  path_exists w output_filename = false ->
  fs w !! parent output_filename = Some Dir ->
  requests_get C url = Ok response ->
  scrape_website C url output_filename w =
  if status_code response =? 200 then
    (Ok tt,
     {| fs := <[output_filename := File extracted]> (fs w);
        trace := trace w ++ [HttpGet url; LibCall "BeautifulSoup.get_text";
                             FileCreate output_filename;
                             FileWrite output_filename extracted] |})
  else
    (Raise (MkExn RuntimeError
              ("Failed to scrape data. HTTP " +:+ pretty (status_code response))),
     log w (HttpGet url)).
Proof.
  intros extracted Hpre _ Hres Habs Hdir Hget. subst extracted.
  unfold scrape_website.
  rewrite (bind_ok _ _ _ _ _ (gate_passed output_filename w Hpre Habs)).
  rewrite bind_emit, (bind_lift _ _ _ _ Hget).
  destruct (status_code response =? 200); [|reflexivity].
  change (negb true) with false. cbv iota. rewrite bind_emit.
  rewrite (bind_ok _ _ _ _ _
             (open_w_creates output_filename
                (log (log w (HttpGet url)) (LibCall "BeautifulSoup.get_text"))
                (absent_lookup w output_filename Habs) Hdir)).
  unfold write_str, log, set_fs. simpl.
  rewrite lookup_insert_eq, insert_insert_eq, <- !app_assoc, !Hres. reflexivity.
Qed.

Lemma scrape_saves_text_or_reports_status_witness :
  scrape_website (Scenes.tools Scenes.web_down Demo.git Scenes.one_row)
    "http://x/page" "/data/page.txt" Demo.fresh =
  (Raise (MkExn RuntimeError "Failed to scrape data. HTTP 503"),
   log Demo.fresh (HttpGet "http://x/page")) /\
  fs (snd (scrape_website (Scenes.tools Scenes.web_text Demo.git Scenes.one_row)
             "http://x/page" "/data/page.txt" Demo.fresh)) !! "/data/page.txt"
  = Some (File "hello").
Proof.
  split.
  - apply (scrape_saves_text_or_reports_status
             (Scenes.tools Scenes.web_down Demo.git Scenes.one_row)
             "http://x/page" "/data/page.txt" Demo.fresh
             {| status_code := 503; content_type := None; text := "busy";
                json := Raise (MkExn (LibraryError "json") "not JSON") |}).
    + reflexivity.
    + reflexivity.
    + reflexivity.
    + vm_compute; reflexivity.
    + vm_compute; reflexivity.
    + reflexivity.
  - rewrite (scrape_saves_text_or_reports_status
               (Scenes.tools Scenes.web_text Demo.git Scenes.one_row)
               "http://x/page" "/data/page.txt" Demo.fresh
               {| status_code := 200; content_type := Some "text/plain";
                  text := "hello";
                  json := Raise (MkExn (LibraryError "json") "not JSON") |}).
    + vm_compute; reflexivity.
    + reflexivity.
    + reflexivity.
    + reflexivity.
    + vm_compute; reflexivity.
    + vm_compute; reflexivity.
    + reflexivity.
Defined.
